(** * Weather lookup page: a shallow embedding of the React component

    The repository holds two revisions of one client component,
    [src/src/app/page.tsx] and [src/unnamed/part_000].  Their request
    lifecycle ([fetchWeatherData]), [getDayOrNight], [getFormattedTime]
    and [getFormattedDate] are the same text; [formatTemperature] and
    [getWeatherIcon] differ in their string literals, and
    [getBackgroundClass] exists in the second revision only.  What is
    common is embedded once; what differs lives in [Module Page] and
    [Module Part000]. *)

From Stdlib Require Import ZArith NArith QArith Qround List String Ascii Bool Lia Lqa.
From Stdlib Require Import DecimalString DecimalZ PrimFloat.
Import ListNotations.

Local Open Scope Z_scope.

(** ** JavaScript values *)

(** A JavaScript string is a sequence of UTF-16 code units. *)
Definition jsstring : Type := list N.

(** An ASCII literal of the source, as code units. *)
Fixpoint lit (s : string) : jsstring :=
  match s with
  | EmptyString => []
  | String c s' => N_of_ascii c :: lit s'
  end.

(** [a === b] on strings. *)
Fixpoint jsstring_eqb (a b : jsstring) : bool :=
  match a, b with
  | [], [] => true
  | x :: a', y :: b' => N.eqb x y && jsstring_eqb a' b'
  | _, _ => false
  end.

(** ToBoolean on a string: only the empty string is falsy. *)
Definition truthy (s : jsstring) : bool :=
  match s with
  | [] => false
  | _ :: _ => true
  end.

(** ToBoolean on [string | null] and [string | undefined]. *)
Definition truthy_opt (o : option jsstring) : bool :=
  match o with
  | None => false
  | Some s => truthy s
  end.

(** [a || b] where [a] is [string | undefined]. *)
Definition or_else (a : option jsstring) (b : jsstring) : jsstring :=
  if truthy_opt a then match a with Some s => s | None => b end else b.

(** Template-literal interpolation of a [string | undefined]. *)
Definition interpolate (o : option jsstring) : jsstring :=
  match o with
  | Some s => s
  | None => lit "undefined"
  end.

(** Code units stripped by [String.prototype.trim]: ECMAScript WhiteSpace
    (TAB, VT, FF, ZWNBSP and the Unicode space separators) and
    LineTerminator (LF, CR, LS, PS). *)
Definition isWhiteSpace (c : N) : bool :=
  (N.eqb c 9 || N.eqb c 10 || N.eqb c 11 || N.eqb c 12 || N.eqb c 13
   || N.eqb c 32 || N.eqb c 160 || N.eqb c 5760
   || (N.leb 8192 c && N.leb c 8202)
   || N.eqb c 8232 || N.eqb c 8233 || N.eqb c 8239 || N.eqb c 8287
   || N.eqb c 12288 || N.eqb c 65279)%bool.

Fixpoint trimStart (s : jsstring) : jsstring :=
  match s with
  | [] => []
  | c :: s' => if isWhiteSpace c then trimStart s' else s
  end.

Definition trimEnd (s : jsstring) : jsstring := rev (trimStart (rev s)).

(** [s.trim()] *)
Definition trim (s : jsstring) : jsstring := trimEnd (trimStart s).

(** [s.slice(0, n)] for a non-negative literal [n]: the first [n] code
    units, or the whole string when it is shorter. *)
Definition slice0 (n : nat) (s : jsstring) : jsstring := firstn n s.

(** JavaScript numbers are IEEE 754 binary64.  The fields that carry
    whole seconds ([dt], [timezone], [sunrise], [sunset]) and status codes
    hold integers; an integer-valued double is embedded as the integer it
    holds, in [Z].  Measurements (temperatures and the like) are finite
    doubles, a subset of the rationals, and are embedded as [Q]. *)

(** The sum of two integer-valued doubles is their exact sum rounded to
    the nearest double, ties going to the even significand, and an
    infinity when that is out of range.  Doubles have 53 significant
    bits: up to magnitude 2^53 every integer is a double, from there on
    the doubles are the multiples of a power of two. *)

(** The multiple of [u] nearest to [x] (for [x >= 0]); of two equally
    near, the even multiple. *)
Definition roundTiesToEven (u x : Z) : Z :=
  let q := x / u in
  let r := x mod u in
  if 2 * r <? u then q * u
  else if u <? 2 * r then (q + 1) * u
  else if Z.even q then q * u else (q + 1) * u.

(** The exponent of the spacing of the doubles around magnitude [x]. *)
Definition ulpExponent (x : Z) : Z := Z.max 0 (Z.log2 x - 52).

(** The double nearest to the integer [x], range left aside. *)
Definition roundBinary64 (x : Z) : Z :=
  Z.sgn x * roundTiesToEven (2 ^ ulpExponent (Z.abs x)) (Z.abs x).

(** The value of a sum of two integer-valued doubles. *)
Inductive number :=
| Finite (z : Z)
| PlusInfinity
| MinusInfinity.

(** [a + b] *)
Definition number_add (a b : Z) : number :=
  let r := roundBinary64 (a + b) in
  if 2 ^ 1024 <=? r then PlusInfinity
  else if r <=? - 2 ^ 1024 then MinusInfinity
  else Finite r.

(** [a <= b] *)
Definition number_leb (a b : number) : bool :=
  match a, b with
  | MinusInfinity, _ => true
  | _, PlusInfinity => true
  | Finite x, Finite y => x <=? y
  | _, _ => false
  end.

(** [a >= b] *)
Definition number_geb (a b : number) : bool := number_leb b a.

(** The integers whose sums are exact: magnitude at most 2^53. *)
Definition safe (x : Z) : Prop := Z.abs x <= 2 ^ 53.

(** [Math.round(x)]: the integer closest to [x]; of two equally close
    integers the one nearer to +infinity.  A result of -0 is not
    distinguished from 0, and ToString prints both as "0". *)
Definition Math_round (x : Q) : Z := Qfloor (x + (1 # 2))%Q.

(** ToString of an integer-valued number (decimal digits, a leading minus
    sign for negatives), as template literals apply it.  These are the
    digits JavaScript prints for integers of magnitude up to 2^53; for
    larger doubles it prints the shortest digits that identify the double
    and, from 10^21 on, exponent notation. *)
Definition Number_toString (n : Z) : jsstring :=
  lit (NilEmpty.string_of_int (Z.to_int n)).

(** ** Dates and the platform's date formatter *)

(** A [Date] holds a time value in milliseconds since the epoch, or is
    invalid when the argument of [new Date(ms)] is out of range. *)
Definition Date : Type := option Z.

(** [new Date(ms)]: TimeClip keeps time values within 8.64e15 ms. *)
Definition new_Date (ms : Z) : Date :=
  if Z.abs ms <=? 8640000000000000 then Some ms else None.

(** A time zone, as the UTC offset (in ms) in force at an instant. *)
Record TimeZone := { offsetMs : Z -> Z }.

Definition UTC : TimeZone := {| offsetMs := fun _ => 0 |}.

(** The options bag of [toLocaleTimeString] / [toLocaleDateString]; an
    absent property is [None]. *)
Record DateTimeFormatOptions := {
  weekday : option jsstring;
  year : option jsstring;
  month : option jsstring;
  day : option jsstring;
  hour : option jsstring;
  minute : option jsstring;
  timeZone : option jsstring
}.

(** The machine the page runs on: its default locale, its own time zone,
    its time-zone database and its locale data.  [cldr locale options t]
    renders the calendar and clock fields of the wall-clock time [t]
    (ms) the way the locale writes them. *)
Record Host := {
  defaultLocale : jsstring;
  defaultTimeZone : TimeZone;
  tzdata : jsstring -> TimeZone;
  cldr : jsstring -> DateTimeFormatOptions -> Z -> jsstring
}.

(** The zone a formatter works in: the [timeZone] option when present
    ("UTC" is built in, other names go through the database), the host's
    own zone otherwise. *)
Definition resolveTimeZone (h : Host) (tz : option jsstring) : TimeZone :=
  match tz with
  | None => defaultTimeZone h
  | Some name => if jsstring_eqb name (lit "UTC") then UTC else tzdata h name
  end.

(** The locale a formatter works in: the first requested one, the host's
    default for an empty list. *)
Definition resolveLocale (h : Host) (locales : list jsstring) : jsstring :=
  match locales with
  | [] => defaultLocale h
  | l :: _ => l
  end.

(** Formatting proper, shared by the two [toLocale...String] methods: the
    instant is moved into the resolved zone and its fields are rendered.
    Both call sites name the fields they want, so no default fields are
    added. *)
Definition DateTimeFormat_format (h : Host) (locales : list jsstring)
    (options : DateTimeFormatOptions) (d : Date) : jsstring :=
  match d with
  | None => lit "Invalid Date"
  | Some t =>
      let zone := resolveTimeZone h (timeZone options) in
      cldr h (resolveLocale h locales) options (t + offsetMs zone t)
  end.

Definition toLocaleTimeString (h : Host) (d : Date) (locales : list jsstring)
    (options : DateTimeFormatOptions) : jsstring :=
  DateTimeFormat_format h locales options d.

Definition toLocaleDateString (h : Host) (d : Date) (locales : list jsstring)
    (options : DateTimeFormatOptions) : jsstring :=
  DateTimeFormat_format h locales options d.

(** ** Data model: [interface WeatherData] *)

Record Main := {
  temp : Q;
  humidity : Q;
  feels_like : Q;
  temp_min : Q;
  temp_max : Q;
  pressure : Q
}.

Record Weather := {
  weather_main : jsstring;
  description : jsstring;
  icon : jsstring
}.

Record Wind := { speed : Q }.

Record Sys := {
  country : jsstring;
  sunrise : Z;
  sunset : Z
}.

Record WeatherData := {
  name : jsstring;
  main : Main;
  weather : list Weather;
  wind : Wind;
  sys : Sys;
  dt : Z;
  timezone : Z;
  cod : Z;
  message : option jsstring
}.

(** ** Component state: the four [useState] cells *)

Record UIState := {
  city : jsstring;
  weatherData : option WeatherData;
  loading : bool;
  error : option jsstring
}.

(** [useState('')], [useState(null)], [useState(false)], [useState(null)] *)
Definition initialState : UIState :=
  {| city := []; weatherData := None; loading := false; error := None |}.

Definition setCity (v : jsstring) (s : UIState) : UIState :=
  {| city := v; weatherData := weatherData s; loading := loading s; error := error s |}.

Definition setWeatherData (v : option WeatherData) (s : UIState) : UIState :=
  {| city := city s; weatherData := v; loading := loading s; error := error s |}.

Definition setLoading (v : bool) (s : UIState) : UIState :=
  {| city := city s; weatherData := weatherData s; loading := v; error := error s |}.

Definition setError (v : option jsstring) (s : UIState) : UIState :=
  {| city := city s; weatherData := weatherData s; loading := loading s; error := v |}.

(** ** Statements over the component state

    The body of [fetchWeatherData] runs setters in sequence, leaves early
    with [return], and sits in [try / catch / finally].  A statement maps
    a state to a completion and the state it leaves. *)

(** A thrown value, as far as the [catch] clause looks at it:
    [err.message], possibly undefined. *)
Record JsError := { err_message : option jsstring }.

Inductive Completion :=
| Normal
| Return
| Throw (e : JsError).

Definition Stmt : Type := UIState -> Completion * UIState.

Definition skip : Stmt := fun s => (Normal, s).

Definition call (f : UIState -> UIState) : Stmt := fun s => (Normal, f s).

Definition ret : Stmt := fun s => (Return, s).

Definition throw (e : JsError) : Stmt := fun s => (Throw e, s).

Definition seq (a b : Stmt) : Stmt :=
  fun s =>
    match a s with
    | (Normal, s') => b s'
    | abrupt => abrupt
    end.

Definition If (c : bool) (a b : Stmt) : Stmt := if c then a else b.

(** [try { body } catch (err) { handler } finally { fin }]: the handler
    runs on a throw of the body, [fin] always runs, and an abrupt
    completion of [fin] replaces the pending one. *)
Definition try_catch_finally (body : Stmt) (handler : JsError -> Stmt)
    (fin : Stmt) : Stmt :=
  fun s =>
    let (c1, s1) := body s in
    let (c2, s2) := match c1 with
                    | Throw e => handler e s1
                    | _ => (c1, s1)
                    end in
    match fin s2 with
    | (Normal, s3) => (c2, s3)
    | abrupt => abrupt
    end.

Declare Scope stmt_scope.
Delimit Scope stmt_scope with stmt.
Notation "a ;; b" := (seq a b) (at level 61, right associativity) : stmt_scope.

(** ** The provider call and its outcomes *)

Record Request := { url : jsstring }.

(** What [await response.json()] does: yields the parsed body or throws. *)
Inductive JsonResult :=
| JsonOk (data : WeatherData)
| JsonThrows (e : JsError).

Record Response := {
  status : Z;
  json : JsonResult
}.

(** [response.ok]: the status is in the range 200-299. *)
Definition ok (r : Response) : bool := (200 <=? status r) && (status r <=? 299).

(** What [await fetch(...)] does: yields a response or throws. *)
Inductive FetchOutcome :=
| Fulfilled (response : Response)
| Rejected (e : JsError).

Definition await_fetch (o : FetchOutcome) (k : Response -> Stmt) : Stmt :=
  match o with
  | Fulfilled response => k response
  | Rejected e => throw e
  end.

Definition await_json (r : Response) (k : WeatherData -> Stmt) : Stmt :=
  match json r with
  | JsonOk data => k data
  | JsonThrows e => throw e
  end.

(** ** [fetchWeatherData]

    An [async] function runs synchronously up to its first [await] and is
    resumed when the awaited promise settles.  [fetchWeatherData] is the
    synchronous part, [fetchWeatherData_resume] the rest, entered with the
    outcome of the fetch.  No state is written between [await fetch] and
    [await response.json()], so the two suspensions are resumed as one. *)

Inductive Suspension :=
| Finished (s : UIState)
| AwaitingFetch (s : UIState) (req : Request).

Definition fetchWeatherData (API_KEY : option jsstring) (cityName : jsstring)
    (s : UIState) : Suspension :=
  if negb (truthy (trim cityName)) then Finished s
  else
    let s := setLoading true s in
    let s := setError None s in
    let s := setWeatherData None s in
    AwaitingFetch s
      {| url := lit "https://api.openweathermap.org/data/2.5/weather?q="
                  ++ cityName ++ lit "&appid=" ++ interpolate API_KEY
                  ++ lit "&units=metric" |}.

Definition fetchWeatherData_try (o : FetchOutcome) : Stmt :=
  (await_fetch o (fun response =>
     If (negb (ok response))
        (If (status response =? 404)
            (call (setError (Some (lit "City not found. Please enter a valid city name."))))
            (call (setError (Some (lit "An error occurred while fetching weather data."))));;
         ret)
        (await_json response (fun data =>
           If (cod data =? 404)
              (call (setError (Some (lit "City not found")));; ret)
              skip;;
           call (setWeatherData (Some data))))))%stmt.

Definition fetchWeatherData_resume (o : FetchOutcome) : Stmt :=
  try_catch_finally
    (fetchWeatherData_try o)
    (fun err =>
       call (setError (Some (or_else (err_message err)
                                     (lit "An unexpected error occurred.")))))
    (call (setLoading false)).

(** The state a settled request leaves. *)
Definition settle (o : FetchOutcome) (s : UIState) : UIState :=
  snd (fetchWeatherData_resume o s).

(** ** Derivation functions common to both revisions *)

(** The arguments are integer-valued doubles; the three sums round. *)
Definition getDayOrNight (dt timezone sunrise sunset : Z) : bool :=
  let localTime := number_add dt timezone in
  let sunriseLocal := number_add sunrise timezone in
  let sunsetLocal := number_add sunset timezone in
  number_geb localTime sunriseLocal && number_leb localTime sunsetLocal.

(** The same function on the kernel's binary64 numbers, to compare the
    rounding above with IEEE arithmetic at given inputs. *)
Definition getDayOrNight_binary64 (dt timezone sunrise sunset : float) : bool :=
  let localTime := PrimFloat.add dt timezone in
  let sunriseLocal := PrimFloat.add sunrise timezone in
  let sunsetLocal := PrimFloat.add sunset timezone in
  PrimFloat.leb sunriseLocal localTime && PrimFloat.leb localTime sunsetLocal.

(** In [getFormattedTime] and [getFormattedDate] below the arithmetic is
    written on [Z] as it stands: a sum of integer-valued doubles is exact
    below 2^53 and the product by 1000 is exact wherever [new Date]
    accepts it, and rounding never brings a value from outside the range
    of [new Date] into it. *)

Definition getFormattedTime (h : Host) (timestamp timezone : Z) : jsstring :=
  let localTimestamp := (timestamp + timezone) * 1000 in
  let date := new_Date localTimestamp in
  toLocaleTimeString h date []
    {| weekday := None; year := None; month := None; day := None;
       hour := Some (lit "2-digit");
       minute := Some (lit "2-digit");
       timeZone := Some (lit "UTC") |}.

Definition getFormattedDate (h : Host) (timestamp timezone : Z) : jsstring :=
  let localTimestamp := (timestamp + timezone) * 1000 in
  let date := new_Date localTimestamp in
  toLocaleDateString h date []
    {| weekday := Some (lit "long");
       year := Some (lit "numeric");
       month := Some (lit "long");
       day := Some (lit "numeric");
       hour := None; minute := None;
       timeZone := Some (lit "UTC") |}.

(** ** Icons: the [lucide-react] components the page draws *)

Inductive LucideIcon :=
| Cloud | CloudSnow | CloudRain | CloudFog | Sun | Moon
| CloudSun | CloudMoon | CloudLightning.

(** A rendered icon element: the component and its [className]. *)
Record Element := {
  component : LucideIcon;
  className : jsstring
}.

(** A [switch] over string cases.  Each clause carries its [case] labels
    (several when labels fall through to one body) and the value its body
    returns; the first clause with a label equal to the scrutinee wins,
    the [default] otherwise. *)
Fixpoint switch {A : Type} (x : jsstring) (clauses : list (list jsstring * A))
    (default : A) : A :=
  match clauses with
  | [] => default
  | (labels, a) :: rest =>
      if existsb (jsstring_eqb x) labels then a else switch x rest default
  end.

(** ** Revision [src/src/app/page.tsx] *)
Module Page.

Definition getWeatherIcon (iconCode : jsstring) (isDay : bool) : Element :=
  if negb (truthy iconCode)
  then {| component := Cloud; className := lit "w-6 h-6" |}
  else
    let prefix := if isDay then lit "day" else lit "night" in
    switch (slice0 2 iconCode)
      [ ([lit "01"], if isDay
                   then {| component := Sun; className := lit "w-6 h-6" |}
                   else {| component := Moon; className := lit "w-6 h-6" |});
        ([lit "02"; lit "03"], if isDay
                   then {| component := CloudSun; className := lit "w-6 h-6" |}
                   else {| component := CloudMoon; className := lit "w-6 h-6" |});
        ([lit "04"], {| component := Cloud; className := lit "w-6 h-6" |});
        ([lit "09"], {| component := CloudRain; className := lit "w-6 h-6" |});
        ([lit "10"], {| component := CloudRain; className := lit "w-6 h-6" |});
        ([lit "11"], {| component := CloudLightning; className := lit "w-6 h-6" |});
        ([lit "13"], {| component := CloudSnow; className := lit "w-6 h-6" |});
        ([lit "50"], {| component := CloudFog; className := lit "w-6 h-6" |}) ]
      {| component := Cloud; className := lit "w-6 h-6" |}.

(** The literal after the interpolation is the three code units
    U+00C2 U+00B0 U+0043 in this revision. *)
Definition formatTemperature (temp : Q) : jsstring :=
  Number_toString (Math_round temp) ++ [194%N; 176%N; 67%N].

End Page.

(** ** Revision [src/unnamed/part_000] *)
Module Part000.

Definition getBackgroundClass (weatherCode : option jsstring)
    (isDay : option bool) : jsstring :=
  if negb (truthy_opt weatherCode)
  then lit "from-blue-100 to-blue-300 dark:from-gray-800 dark:to-gray-900"
  else
    let code := slice0 2 (match weatherCode with Some c => c | None => [] end) in
    let isDay := match isDay with Some b => b | None => false end in
    if jsstring_eqb code (lit "01") then
      if isDay
      then lit "from-sky-400 to-blue-500 dark:from-blue-900 dark:to-indigo-900"
      else lit "from-indigo-900 to-gray-900 dark:from-gray-900 dark:to-black"
    else if jsstring_eqb code (lit "02") || jsstring_eqb code (lit "03") then
      if isDay
      then lit "from-blue-300 to-blue-400 dark:from-blue-800 dark:to-blue-900"
      else lit "from-blue-800 to-indigo-900 dark:from-gray-800 dark:to-gray-900"
    else if jsstring_eqb code (lit "04") then
      lit "from-gray-300 to-gray-400 dark:from-gray-700 dark:to-gray-800"
    else if jsstring_eqb code (lit "09") || jsstring_eqb code (lit "10") then
      lit "from-gray-400 to-blue-500 dark:from-gray-700 dark:to-blue-900"
    else if jsstring_eqb code (lit "11") then
      lit "from-gray-600 to-blue-700 dark:from-gray-800 dark:to-blue-900"
    else if jsstring_eqb code (lit "13") then
      lit "from-blue-100 to-blue-300 dark:from-blue-800 dark:to-blue-900"
    else if jsstring_eqb code (lit "50") then
      lit "from-gray-200 to-gray-300 dark:from-gray-600 dark:to-gray-700"
    else
      lit "from-blue-100 to-blue-300 dark:from-gray-800 dark:to-gray-900".

Definition getWeatherIcon (iconCode : jsstring) (isDay : bool) : Element :=
  if negb (truthy iconCode)
  then {| component := Cloud; className := lit "w-8 h-8 text-gray-500" |}
  else
    let iconClass := lit "w-8 h-8" in
    switch (slice0 2 iconCode)
      [ ([lit "01"], if isDay
                   then {| component := Sun; className := iconClass ++ lit " text-yellow-400" |}
                   else {| component := Moon; className := iconClass ++ lit " text-gray-300" |});
        ([lit "02"; lit "03"], if isDay
                   then {| component := CloudSun; className := iconClass ++ lit " text-yellow-400" |}
                   else {| component := CloudMoon; className := iconClass ++ lit " text-gray-300" |});
        ([lit "04"], {| component := Cloud; className := iconClass ++ lit " text-gray-400" |});
        ([lit "09"; lit "10"], {| component := CloudRain; className := iconClass ++ lit " text-blue-400" |});
        ([lit "11"], {| component := CloudLightning; className := iconClass ++ lit " text-yellow-300" |});
        ([lit "13"], {| component := CloudSnow; className := iconClass ++ lit " text-blue-200" |});
        ([lit "50"], {| component := CloudFog; className := iconClass ++ lit " text-gray-300" |}) ]
      {| component := Cloud; className := iconClass ++ lit " text-gray-400" |}.

(** The literal after the interpolation is U+00B0 U+0043. *)
Definition formatTemperature (temp : Q) : jsstring :=
  Number_toString (Math_round temp) ++ [176%N; 67%N].

(** [isDayTime] of the render body: day when nothing is loaded. *)
Definition isDayTime (s : UIState) : bool :=
  match weatherData s with
  | Some w => getDayOrNight (dt w) (timezone w) (sunrise (sys w)) (sunset (sys w))
  | None => true
  end.

(** [backgroundClass] of the render body.  With a snapshot it reads
    [weatherData.weather[0].icon], which throws when the list is empty
    ([None] here); without one it calls [getBackgroundClass()]. *)
Definition backgroundClass (s : UIState) : option jsstring :=
  match weatherData s with
  | Some w =>
      match weather w with
      | first :: _ =>
          Some (getBackgroundClass (Some (icon first)) (Some (isDayTime s)))
      | [] => None
      end
  | None => Some (getBackgroundClass None None)
  end.

End Part000.

(** ** The page as an event-driven machine

    What can happen to a mounted component: the user edits the input,
    presses a key in it, clicks the search button, clicks the button of
    the error panel, or a pending fetch settles.  The render body decides
    which controls exist: with a truthy [error] only the error panel is
    drawn; otherwise the input and the search button are, and the button
    is [disabled] while [loading]. *)

Record World := {
  ui : UIState;
  inflight : list Request
}.

Definition initialWorld : World := {| ui := initialState; inflight := [] |}.

Inductive Event :=
| Change (value : jsstring)
| KeyDown (key : jsstring)
| ClickSearch
| ClickDismiss
| Settle (i : nat) (o : FetchOutcome).

Definition errorPanelShown (s : UIState) : bool := truthy_opt (error s).

(** [handleSearch]: [fetchWeatherData(city)], the request (if any) joining
    those in flight. *)
Definition handleSearch (API_KEY : option jsstring) (w : World) : World :=
  match fetchWeatherData API_KEY (city (ui w)) (ui w) with
  | Finished s => {| ui := s; inflight := inflight w |}
  | AwaitingFetch s req => {| ui := s; inflight := inflight w ++ [req] |}
  end.

(** [handleKeyDown] *)
Definition handleKeyDown (API_KEY : option jsstring) (key : jsstring)
    (w : World) : World :=
  if jsstring_eqb key (lit "Enter") then handleSearch API_KEY w else w.

(** The [onClick] of the error panel's button. *)
Definition dismiss (s : UIState) : UIState :=
  setCity [] (setError None s).

Fixpoint remove_nth {A : Type} (i : nat) (l : list A) : list A :=
  match i, l with
  | _, [] => []
  | O, _ :: l' => l'
  | S i', x :: l' => x :: remove_nth i' l'
  end.

(** One event; [None] when the control it needs is not on the page (or,
    for [Settle], when there is no such pending request). *)
Definition step (API_KEY : option jsstring) (w : World) (e : Event)
    : option World :=
  match e with
  | Change v =>
      if errorPanelShown (ui w) then None
      else Some {| ui := setCity v (ui w); inflight := inflight w |}
  | KeyDown key =>
      if errorPanelShown (ui w) then None
      else Some (handleKeyDown API_KEY key w)
  | ClickSearch =>
      if errorPanelShown (ui w) || loading (ui w) then None
      else Some (handleSearch API_KEY w)
  | ClickDismiss =>
      if errorPanelShown (ui w)
      then Some {| ui := dismiss (ui w); inflight := inflight w |}
      else None
  | Settle i o =>
      match nth_error (inflight w) i with
      | Some _ => Some {| ui := settle o (ui w); inflight := remove_nth i (inflight w) |}
      | None => None
      end
  end.

Fixpoint run (API_KEY : option jsstring) (w : World) (es : list Event)
    : option World :=
  match es with
  | [] => Some w
  | e :: es' =>
      match step API_KEY w e with
      | Some w' => run API_KEY w' es'
      | None => None
      end
  end.

(** A state the page can be in. *)
Definition reachable (API_KEY : option jsstring) (w : World) : Prop :=
  exists es, run API_KEY initialWorld es = Some w.

(** The four states of the request lifecycle, read off the cells. *)
Inductive Phase := Idle | Loading | Success | Error.

Definition phase (s : UIState) : Phase :=
  if loading s then Loading
  else match error s, weatherData s with
       | Some _, _ => Error
       | None, Some _ => Success
       | None, None => Idle
       end.

(** Both an error message and a snapshot are held. *)
Definition bothActive (s : UIState) : Prop :=
  error s <> None /\ weatherData s <> None.

(** ** The condition table of the specification

    The specification groups condition codes by their two-character
    prefix into eight categories.  [spec_category] is that table, written
    from the specification and the provider's code list; the theorems
    below compare the source's [switch] and [if] chains with it. *)

Inductive Category :=
| Clear | PartlyCloudy | Overcast | Rain | Thunderstorm | Snow | Fog
| DefaultCategory.

Definition conditionTable : list (string * Category) :=
  [ ("01", Clear); ("02", PartlyCloudy); ("03", PartlyCloudy);
    ("04", Overcast); ("09", Rain); ("10", Rain); ("11", Thunderstorm);
    ("13", Snow); ("50", Fog) ]%string.

Fixpoint lookupCategory (prefix : jsstring) (table : list (string * Category))
    : Category :=
  match table with
  | [] => DefaultCategory
  | (k, c) :: rest =>
      if jsstring_eqb prefix (lit k) then c else lookupCategory prefix rest
  end.

Definition spec_category (prefix : jsstring) : Category :=
  lookupCategory prefix conditionTable.

(** The prefixes the table knows. *)
Definition recognized (prefix : jsstring) : Prop :=
  In prefix (map (fun kc => lit (fst kc)) conditionTable).

(** The icon of a category: clear and partly cloudy have a day and a
    night variant; overcast and the default are the plain cloud. *)
Definition spec_icon (c : Category) (isDaytime : bool) : LucideIcon :=
  match c with
  | Clear => if isDaytime then Sun else Moon
  | PartlyCloudy => if isDaytime then CloudSun else CloudMoon
  | Overcast => Cloud
  | Rain => CloudRain
  | Thunderstorm => CloudLightning
  | Snow => CloudSnow
  | Fog => CloudFog
  | DefaultCategory => Cloud
  end.

(** The theme of a category, by the gradient classes of the second
    revision. *)
Definition spec_theme (c : Category) (isDaytime : bool) : jsstring :=
  match c with
  | Clear =>
      if isDaytime
      then lit "from-sky-400 to-blue-500 dark:from-blue-900 dark:to-indigo-900"
      else lit "from-indigo-900 to-gray-900 dark:from-gray-900 dark:to-black"
  | PartlyCloudy =>
      if isDaytime
      then lit "from-blue-300 to-blue-400 dark:from-blue-800 dark:to-blue-900"
      else lit "from-blue-800 to-indigo-900 dark:from-gray-800 dark:to-gray-900"
  | Overcast => lit "from-gray-300 to-gray-400 dark:from-gray-700 dark:to-gray-800"
  | Rain => lit "from-gray-400 to-blue-500 dark:from-gray-700 dark:to-blue-900"
  | Thunderstorm => lit "from-gray-600 to-blue-700 dark:from-gray-800 dark:to-blue-900"
  | Snow => lit "from-blue-100 to-blue-300 dark:from-blue-800 dark:to-blue-900"
  | Fog => lit "from-gray-200 to-gray-300 dark:from-gray-600 dark:to-gray-700"
  | DefaultCategory => lit "from-blue-100 to-blue-300 dark:from-gray-800 dark:to-gray-900"
  end.

(** ** Sample inputs used in the examples below *)

Definition paris : WeatherData :=
  {| name := lit "Paris";
     main := {| temp := 39 # 2; humidity := 60; feels_like := 19;
                temp_min := 18; temp_max := 21; pressure := 1013 |};
     weather := [ {| weather_main := lit "Rain";
                     description := lit "light rain";
                     icon := lit "10d" |} ];
     wind := {| speed := 7 # 2 |};
     sys := {| country := lit "FR"; sunrise := 1700030000; sunset := 1700063000 |};
     dt := 1700040000;
     timezone := 3600;
     cod := 200;
     message := None |}.

(** A body that parses but reports not-found in its [cod] field. *)
Definition notFoundBody : WeatherData :=
  {| name := [];
     main := {| temp := 0; humidity := 0; feels_like := 0;
                temp_min := 0; temp_max := 0; pressure := 0 |};
     weather := [];
     wind := {| speed := 0 |};
     sys := {| country := []; sunrise := 0; sunset := 0 |};
     dt := 0;
     timezone := 0;
     cod := 404;
     message := Some (lit "city not found") |}.

Definition http200 (d : WeatherData) : Response :=
  {| status := 200; json := JsonOk d |}.

Definition http404 : Response :=
  {| status := 404; json := JsonOk notFoundBody |}.

(** The state right after a search for "Paris" was submitted. *)
Definition searchingParis : UIState :=
  {| city := lit "Paris"; weatherData := None; loading := true; error := None |}.

(** Enter pressed twice on "Paris"; the first request succeeds, the
    second comes back with HTTP 404. *)
Definition overlappingSearches : list Event :=
  [ Change (lit "Paris");
    KeyDown (lit "Enter");
    KeyDown (lit "Enter");
    Settle 0 (Fulfilled (http200 paris));
    Settle 0 (Fulfilled http404) ].

(** A toy locale: hours and minutes of the day, as numbers. *)
Definition clockFace (locale : jsstring) (options : DateTimeFormatOptions)
    (t : Z) : jsstring :=
  Number_toString ((t / 3600000) mod 24) ++ lit ":"
    ++ Number_toString ((t / 60000) mod 60).

Definition hostInLondon : Host :=
  {| defaultLocale := lit "en-GB";
     defaultTimeZone := UTC;
     tzdata := fun _ => UTC;
     cldr := clockFace |}.

Definition hostInKolkata : Host :=
  {| defaultLocale := lit "en-GB";
     defaultTimeZone := {| offsetMs := fun _ => 19800000 |};
     tzdata := fun _ => UTC;
     cldr := clockFace |}.

(** -0.4 as the double nearest to it. *)
Definition minus_0_4 : Q := (-3602879701896397 # 9007199254740992)%Q.

(** The same machine with another time zone of its own. *)
Definition withTimeZone (h : Host) (zone : TimeZone) : Host :=
  {| defaultLocale := defaultLocale h;
     defaultTimeZone := zone;
     tzdata := tzdata h;
     cldr := cldr h |}.

(** ** Predicates used in the statements *)

(** Only whitespace: what "consists only of whitespace" means for a query
    (the empty string included). *)
Definition blank (s : jsstring) : Prop := Forall (fun c => isWhiteSpace c = true) s.

(** What holds as long as searches do not overlap: with nothing in flight
    loading is off and at most one cell is set; with one request in
    flight the page is loading and both cells are empty; there is never
    more than one request. *)
Definition orderly (w : World) : Prop :=
  match inflight w with
  | [] => loading (ui w) = false /\ ~ bothActive (ui w)
  | [_] => loading (ui w) = true /\ error (ui w) = None /\ weatherData (ui w) = None
  | _ => False
  end.

(** Enter pressed in the input. *)
Definition pressesEnter (e : Event) : bool :=
  match e with
  | KeyDown key => jsstring_eqb key (lit "Enter")
  | _ => false
  end.

(** Enter is pressed only while the page is not loading. *)
Fixpoint enterOnlyWhenIdle (API_KEY : option jsstring) (w : World)
    (es : list Event) : Prop :=
  match es with
  | [] => True
  | e :: es' =>
      (pressesEnter e = true -> loading (ui w) = false)
      /\ match step API_KEY w e with
         | Some w' => enterOnlyWhenIdle API_KEY w' es'
         | None => True
         end
  end.

(** ** Outcomes, by what they leave behind *)

(** The snapshot a settling request stores, if it stores one: the
    response is [ok], its body parses, and the body's [cod] is not 404. *)
Definition snapshotOf (o : FetchOutcome) : option WeatherData :=
  match o with
  | Fulfilled r =>
      if ok r
      then match json r with
           | JsonOk d => if cod d =? 404 then None else Some d
           | JsonThrows _ => None
           end
      else None
  | Rejected _ => None
  end.

(** Searches are started with the button only. *)
Definition buttonOnly (es : list Event) : Prop :=
  Forall (fun e => pressesEnter e = false) es.

(** The state a finished search for [c] leaves when it stored [d]. *)
Definition showing (c : jsstring) (d : WeatherData) : World :=
  {| ui := {| city := c; weatherData := Some d; loading := false; error := None |};
     inflight := [] |}.

(** More sample inputs. *)

Definition http500 : Response :=
  {| status := 500; json := JsonThrows {| err_message := None |} |}.

(** A successful response whose body is not JSON. *)
Definition garbled : Response :=
  {| status := 200;
     json := JsonThrows {| err_message := Some (lit "Unexpected token < in JSON") |} |}.

(** A body with an empty [weather] list. *)
Definition noWeather : WeatherData :=
  {| name := lit "Nowhere";
     main := main paris;
     weather := [];
     wind := wind paris;
     sys := sys paris;
     dt := dt paris;
     timezone := timezone paris;
     cod := 200;
     message := None |}.

(** * Properties *)

(** Case analysis on every comparison of a prefix with a label. *)
Ltac by_prefix_tests p :=
  repeat match goal with
         | |- context [jsstring_eqb p ?l] =>
             destruct (jsstring_eqb p l); cbn [orb component]
         end.

(** ** Strings *)

Lemma jsstring_eqb_eq (a b : jsstring) : jsstring_eqb a b = true <-> a = b.
Proof.
  revert b; induction a as [|x a IH]; intros [|y b]; simpl;
    try (split; [discriminate | congruence]); try tauto.
  rewrite andb_true_iff, N.eqb_eq, IH. split.
  - intros [-> ->]; reflexivity.
  - intros E; injection E; auto.
Qed.

Lemma jsstring_eqb_refl (a : jsstring) : jsstring_eqb a a = true.
Proof. apply jsstring_eqb_eq; reflexivity. Qed.

Lemma jsstring_eqb_neq (a b : jsstring) : a <> b -> jsstring_eqb a b = false.
Proof.
  intros H. destruct (jsstring_eqb a b) eqn:E; [|reflexivity].
  apply jsstring_eqb_eq in E. contradiction.
Qed.

Lemma trimStart_blank (s : jsstring) : blank s -> trimStart s = [].
Proof.
  induction 1 as [|c s Hc _ IH]; simpl; [reflexivity|].
  rewrite Hc. exact IH.
Qed.

(** What [trimStart] leaves is empty or starts with a non-whitespace unit. *)
Lemma trimStart_head (s : jsstring) :
  trimStart s = [] \/
  exists c r, trimStart s = c :: r /\ isWhiteSpace c = false.
Proof.
  induction s as [|c s IH]; simpl; [left; reflexivity|].
  destruct (isWhiteSpace c) eqn:E; [exact IH|].
  right; exists c, s; split; [reflexivity | exact E].
Qed.

Lemma trimStart_nil_blank (s : jsstring) : trimStart s = [] -> blank s.
Proof.
  induction s as [|c s IH]; simpl; intros H; [constructor|].
  destruct (isWhiteSpace c) eqn:E; [|discriminate].
  constructor; [exact E | exact (IH H)].
Qed.

Lemma blank_rev (s : jsstring) : blank (rev s) -> blank s.
Proof.
  unfold blank. rewrite !Forall_forall. intros H c Hc.
  apply H. apply in_rev. rewrite rev_involutive. exact Hc.
Qed.

(** [trim] leaves nothing exactly on blank strings. *)
Lemma trim_nil_iff (s : jsstring) : trim s = [] <-> blank s.
Proof.
  unfold trim, trimEnd. split.
  - intros H.
    assert (H1 : trimStart (rev (trimStart s)) = []).
    { apply (f_equal (@rev N)) in H. rewrite rev_involutive in H. exact H. }
    apply trimStart_nil_blank, blank_rev in H1.
    destruct (trimStart_head s) as [E | (c & r & E & Hc)].
    + apply trimStart_nil_blank; exact E.
    + rewrite E in H1. inversion H1; congruence.
  - intros H. rewrite (trimStart_blank s H). reflexivity.
Qed.

Lemma truthy_false_iff (s : jsstring) : truthy s = false <-> s = [].
Proof. destruct s; simpl; split; congruence. Qed.

(** ** Submitting a query *)

(** C6.  A query that is empty or only whitespace is not submitted:
    [fetchWeatherData] finishes at once, without a request, in the state
    it was called in, and a search from the page ([handleSearch], reached
    by the button and by Enter) leaves the whole world as it was: loading
    flag, error message, snapshot, query text and the requests in
    flight. *)
Theorem blank_query_is_noop :
  forall (API_KEY : option jsstring) (cityName : jsstring) (s : UIState),
    blank cityName ->
    fetchWeatherData API_KEY cityName s = Finished s
    /\ forall w : World, city (ui w) = cityName -> handleSearch API_KEY w = w.
Proof.
  intros API_KEY cityName s H.
  apply trim_nil_iff in H.
  assert (F : forall s', fetchWeatherData API_KEY cityName s' = Finished s').
  { intros s'. unfold fetchWeatherData. rewrite H. reflexivity. }
  split; [apply F|].
  intros [u fl] E. simpl in E. unfold handleSearch. simpl.
  rewrite E, F. reflexivity.
Qed.

Lemma blank_query_is_noop_witness :
  fetchWeatherData None (lit "  ") searchingParis = Finished searchingParis
  /\ forall w : World, city (ui w) = lit "  " -> handleSearch None w = w.
Proof.
  apply (blank_query_is_noop None (lit "  ") searchingParis).
  repeat constructor.
Defined.

(** C4.  A query that is not empty after trimming is submitted: the
    synchronous part of [fetchWeatherData] ends suspended on the request,
    and the state it leaves behind, whatever the state before (idle,
    success or error alike), is loading with no error message and no
    snapshot; the query text is untouched. *)
Theorem submit_enters_loading :
  forall (API_KEY : option jsstring) (cityName : jsstring) (s : UIState),
    trim cityName <> [] ->
    exists s' req,
      fetchWeatherData API_KEY cityName s = AwaitingFetch s' req
      /\ loading s' = true
      /\ error s' = None
      /\ weatherData s' = None
      /\ city s' = city s
      /\ phase s' = Loading.
Proof.
  intros API_KEY cityName s H.
  unfold fetchWeatherData.
  destruct (truthy (trim cityName)) eqn:E.
  - simpl. eexists; eexists. split; [reflexivity|].
    repeat split; reflexivity.
  - apply truthy_false_iff in E. contradiction.
Qed.

Lemma submit_enters_loading_witness :
  exists s' req,
    fetchWeatherData None (lit " Paris ")
      {| city := lit " Paris "; weatherData := Some paris;
         loading := false; error := None |} = AwaitingFetch s' req
    /\ loading s' = true
    /\ error s' = None
    /\ weatherData s' = None
    /\ city s' = lit " Paris "
    /\ phase s' = Loading.
Proof.
  apply (submit_enters_loading None (lit " Paris ")
           {| city := lit " Paris "; weatherData := Some paris;
              loading := false; error := None |}).
  vm_compute. discriminate.
Defined.

(** ** Sums of whole seconds *)

Lemma roundBinary64_safe (x : Z) : safe x -> roundBinary64 x = x.
Proof.
  unfold safe, roundBinary64. intros H.
  assert (E : roundTiesToEven (2 ^ ulpExponent (Z.abs x)) (Z.abs x) = Z.abs x).
  { destruct (Z.eq_dec (Z.abs x) (2 ^ 53)) as [-> | N].
    - reflexivity.
    - assert (L : Z.log2 (Z.abs x) < 53).
      { destruct (Z.eq_dec (Z.abs x) 0) as [-> | P]; [reflexivity|].
        apply Z.log2_lt_pow2; lia. }
      unfold ulpExponent. rewrite Z.max_l by lia.
      unfold roundTiesToEven. cbv zeta.
      rewrite Z.pow_0_r, Z.div_1_r, Z.mod_1_r. simpl. lia. }
  rewrite E. destruct x; simpl; reflexivity.
Qed.

(** Sums of magnitude up to 2^53 are exact. *)
Lemma number_add_safe (a b : Z) :
  safe (a + b) -> number_add a b = Finite (a + b).
Proof.
  intros H. unfold number_add. cbv zeta. rewrite (roundBinary64_safe _ H).
  unfold safe in H.
  assert (B : 2 ^ 53 < 2 ^ 1024) by (apply Z.pow_lt_mono_r; lia).
  destruct (2 ^ 1024 <=? a + b) eqn:E1; [apply Z.leb_le in E1; lia|].
  destruct (a + b <=? - 2 ^ 1024) eqn:E2; [apply Z.leb_le in E2; lia|].
  reflexivity.
Qed.

Lemma getDayOrNight_safe (dt tz sr ss : Z) :
  safe (dt + tz) -> safe (sr + tz) -> safe (ss + tz) ->
  getDayOrNight dt tz sr ss = (sr + tz <=? dt + tz) && (dt + tz <=? ss + tz).
Proof.
  intros H1 H2 H3. unfold getDayOrNight. cbv zeta.
  rewrite !number_add_safe by assumption. reflexivity.
Qed.

(** The rounding written out above against the kernel's IEEE arithmetic:
    ties above 2^53, the last finite double, and the step to infinity. *)
Example number_add_agrees_with_binary64 :
  number_add 9007199254740994 1 = Finite 9007199254740996
  /\ PrimFloat.eqb (PrimFloat.add 9007199254740994 1) 9007199254740996 = true
  /\ number_add 9007199254741000 1 = Finite 9007199254741000
  /\ PrimFloat.eqb (PrimFloat.add 9007199254741000 1) 9007199254741000 = true
  /\ number_add (-9007199254740994) (-1) = Finite (-9007199254740996)
  /\ PrimFloat.eqb (PrimFloat.add (-9007199254740994) (-1)) (-9007199254740996)
       = true
  /\ number_add 18014398509481982 1 = Finite 18014398509481984
  /\ PrimFloat.eqb (PrimFloat.add 18014398509481982 1) 18014398509481984 = true
  /\ number_add (2 ^ 1024 - 2 ^ 971) (2 ^ 969) = Finite (2 ^ 1024 - 2 ^ 971)
  /\ PrimFloat.eqb (PrimFloat.add 0x1.fffffffffffffp1023 0x1p969)
       0x1.fffffffffffffp1023 = true
  /\ number_add (2 ^ 1024 - 2 ^ 971) (2 ^ 970) = PlusInfinity
  /\ PrimFloat.eqb (PrimFloat.add 0x1.fffffffffffffp1023 0x1p970)
       PrimFloat.infinity = true.
Proof. repeat split; vm_compute; reflexivity. Qed.

Example getDayOrNight_agrees_with_binary64 :
  getDayOrNight 1700040000 3600 1700030000 1700063000
    = getDayOrNight_binary64 1700040000 3600 1700030000 1700063000
  /\ getDayOrNight 1700063001 3600 1700030000 1700063000
       = getDayOrNight_binary64 1700063001 3600 1700030000 1700063000
  /\ getDayOrNight 9007199254740994 1 9007199254740996 9007199254741000
       = getDayOrNight_binary64 9007199254740994 1 9007199254740996 9007199254741000
  /\ getDayOrNight 9007199254740994 0 9007199254740996 9007199254741000
       = getDayOrNight_binary64 9007199254740994 0 9007199254740996 9007199254741000
  /\ getDayOrNight (2 ^ 1023) (2 ^ 1023) (2 ^ 1023) 0
       = getDayOrNight_binary64 0x1p1023 0x1p1023 0x1p1023 0.
Proof. repeat split; vm_compute; reflexivity. Qed.

(** ** Day or night *)




(** C10, as stated, fails: with the times of the example above the
    answer is [true] for the offset 1 and [false] for the offset 0. *)
Lemma getDayOrNight_offset_matters_when_sums_round :
  getDayOrNight 9007199254740994 1 9007199254740996 9007199254741000 = true
  /\ getDayOrNight 9007199254740994 0 9007199254740996 9007199254741000 = false
  /\ getDayOrNight_binary64 9007199254740994 1 9007199254740996 9007199254741000
       = true
  /\ getDayOrNight_binary64 9007199254740994 0 9007199254740996 9007199254741000
       = false
  /\ getDayOrNight 9007199254740994 1 9007199254740996 9007199254741000
       <> getDayOrNight 9007199254740994 0 9007199254740996 9007199254741000.
Proof.
  repeat split; try (vm_compute; reflexivity).
  vm_compute. discriminate.
Qed.

(** C10, amended.  The offset plays no part in [getDayOrNight] as long
    as the shifted times have magnitude at most 2^53: two such offsets
    give the same answer, which is the comparison of the unshifted
    times. *)
Theorem getDayOrNight_offset_irrelevant :
  forall dt sunrise sunset tz1 tz2 : Z,
    safe (dt + tz1) -> safe (sunrise + tz1) -> safe (sunset + tz1) ->
    safe (dt + tz2) -> safe (sunrise + tz2) -> safe (sunset + tz2) ->
    getDayOrNight dt tz1 sunrise sunset = getDayOrNight dt tz2 sunrise sunset
    /\ getDayOrNight dt tz1 sunrise sunset = (sunrise <=? dt) && (dt <=? sunset).
Proof.
  assert (H : forall dt sr ss tz,
             safe (dt + tz) -> safe (sr + tz) -> safe (ss + tz) ->
             getDayOrNight dt tz sr ss = (sr <=? dt) && (dt <=? ss)).
  { intros dt sr ss tz Hd Hr Hs.
    rewrite (getDayOrNight_safe dt tz sr ss Hd Hr Hs).
    f_equal; apply Bool.eq_true_iff_eq; rewrite !Z.leb_le; lia. }
  intros dt sr ss tz1 tz2 A1 A2 A3 B1 B2 B3. split.
  - rewrite (H dt sr ss tz1), (H dt sr ss tz2) by assumption. reflexivity.
  - apply H; assumption.
Qed.

Lemma getDayOrNight_offset_irrelevant_witness :
  getDayOrNight 1700040000 3600 1700030000 1700063000
    = getDayOrNight 1700040000 (-18000) 1700030000 1700063000
  /\ getDayOrNight 1700040000 3600 1700030000 1700063000
       = (1700030000 <=? 1700040000) && (1700040000 <=? 1700063000).
Proof.
  assert (S : forall x, Z.abs x <= 2000000000 -> safe x).
  { intros x H. unfold safe. change (2 ^ 53) with 9007199254740992. lia. }
  apply (getDayOrNight_offset_irrelevant 1700040000 1700030000 1700063000
           3600 (-18000)); apply S; lia.
Defined.

(** ** Settling a request *)

(** What each way of settling leaves, as plain setter calls. *)
Lemma settle_http_error (r : Response) (s : UIState) :
  ok r = false ->
  settle (Fulfilled r) s =
    setLoading false
      (setError (Some (if status r =? 404
                       then lit "City not found. Please enter a valid city name."
                       else lit "An error occurred while fetching weather data.")) s).
Proof.
  intros H. unfold settle, fetchWeatherData_resume, try_catch_finally,
    fetchWeatherData_try, await_fetch, If, seq, call, ret.
  rewrite H. simpl. destruct (status r =? 404); reflexivity.
Qed.

Lemma settle_json_throws (r : Response) (e : JsError) (s : UIState) :
  ok r = true -> json r = JsonThrows e ->
  settle (Fulfilled r) s =
    setLoading false
      (setError (Some (or_else (err_message e)
                               (lit "An unexpected error occurred."))) s).
Proof.
  intros H J. unfold settle, fetchWeatherData_resume, try_catch_finally,
    fetchWeatherData_try, await_fetch, await_json, If, seq, call, ret, throw.
  rewrite H, J. reflexivity.
Qed.

Lemma settle_body (r : Response) (d : WeatherData) (s : UIState) :
  ok r = true -> json r = JsonOk d ->
  settle (Fulfilled r) s =
    if cod d =? 404
    then setLoading false (setError (Some (lit "City not found")) s)
    else setLoading false (setWeatherData (Some d) s).
Proof.
  intros H J. unfold settle, fetchWeatherData_resume, try_catch_finally,
    fetchWeatherData_try, await_fetch, await_json, If, seq, call, ret, skip.
  rewrite H, J. simpl. destruct (cod d =? 404); reflexivity.
Qed.

Lemma settle_rejected (e : JsError) (s : UIState) :
  settle (Rejected e) s =
    setLoading false
      (setError (Some (or_else (err_message e)
                               (lit "An unexpected error occurred."))) s).
Proof. reflexivity. Qed.

Lemma status_404_not_ok (r : Response) : status r = 404 -> ok r = false.
Proof. intros H. unfold ok. rewrite H. reflexivity. Qed.

(** The fallback of [||] is never the empty string here. *)
Lemma or_else_truthy (a : option jsstring) (b : jsstring) :
  truthy b = true -> truthy (or_else a b) = true.
Proof.
  intros H. unfold or_else. destruct a as [[|c a]|]; simpl; auto.
Qed.

(** A settled request writes at most one of the two cells, and never
    clears the other. *)
Lemma settle_cases (o : FetchOutcome) (s : UIState) :
  (exists m, truthy m = true
             /\ settle o s = setLoading false (setError (Some m) s))
  \/ (exists d, settle o s = setLoading false (setWeatherData (Some d) s)).
Proof.
  destruct o as [r | e].
  - destruct (ok r) eqn:Hok.
    + destruct (json r) as [d | e] eqn:J.
      * rewrite (settle_body r d s Hok J).
        destruct (cod d =? 404).
        -- left. eexists; split; [|reflexivity]. reflexivity.
        -- right. eexists; reflexivity.
      * rewrite (settle_json_throws r e s Hok J).
        left. eexists; split; [|reflexivity].
        apply or_else_truthy; reflexivity.
    + rewrite (settle_http_error r s Hok).
      left. eexists; split; [|reflexivity].
      destruct (status r =? 404); reflexivity.
  - rewrite settle_rejected.
    left. eexists; split; [|reflexivity].
    apply or_else_truthy; reflexivity.
Qed.

(** C1, as stated, fails: settled from the same state, a response with
    HTTP status 404 and a successful response whose body has [cod] 404
    leave different messages, hence different states. *)
Lemma not_found_messages_differ :
  status http404 = 404
  /\ ok (http200 notFoundBody) = true
  /\ json (http200 notFoundBody) = JsonOk notFoundBody
  /\ cod notFoundBody = 404
  /\ error (settle (Fulfilled http404) searchingParis)
       = Some (lit "City not found. Please enter a valid city name.")
  /\ error (settle (Fulfilled (http200 notFoundBody)) searchingParis)
       = Some (lit "City not found")
  /\ settle (Fulfilled http404) searchingParis
       <> settle (Fulfilled (http200 notFoundBody)) searchingParis.
Proof.
  repeat split; try reflexivity.
  intros H. apply (f_equal error) in H. vm_compute in H. discriminate H.
Qed.

(** C1, amended.  Both kinds of not-found end in an error state that
    differs only in the message: a response with HTTP status 404 leaves
    "City not found. Please enter a valid city name.", a successful
    response whose body has [cod] 404 leaves "City not found".  In both,
    loading is over, the query text is kept and no snapshot is stored: the
    snapshot cell is not written, so it is still empty when the request
    was the one submitted last. *)
Theorem not_found_both_error_states :
  forall (s : UIState) (viaStatus viaPayload : Response) (body : WeatherData),
    status viaStatus = 404 ->
    ok viaPayload = true ->
    json viaPayload = JsonOk body ->
    cod body = 404 ->
    let s1 := settle (Fulfilled viaStatus) s in
    let s2 := settle (Fulfilled viaPayload) s in
    error s1 = Some (lit "City not found. Please enter a valid city name.")
    /\ error s2 = Some (lit "City not found")
    /\ loading s1 = false /\ loading s2 = false
    /\ weatherData s1 = weatherData s /\ weatherData s2 = weatherData s
    /\ city s1 = city s /\ city s2 = city s
    /\ (loading s = true -> weatherData s = None ->
        phase s1 = Error /\ phase s2 = Error
        /\ weatherData s1 = None /\ weatherData s2 = None).
Proof.
  intros s r1 r2 d H1 Hok J Hcod s1 s2. subst s1 s2.
  rewrite (settle_http_error r1 s (status_404_not_ok r1 H1)), H1.
  rewrite (settle_body r2 d s Hok J), Hcod.
  simpl. repeat split; auto.
Qed.

Lemma not_found_both_error_states_witness :
  let s1 := settle (Fulfilled http404) searchingParis in
  let s2 := settle (Fulfilled (http200 notFoundBody)) searchingParis in
  error s1 = Some (lit "City not found. Please enter a valid city name.")
  /\ error s2 = Some (lit "City not found")
  /\ loading s1 = false /\ loading s2 = false
  /\ weatherData s1 = weatherData searchingParis
  /\ weatherData s2 = weatherData searchingParis
  /\ city s1 = city searchingParis /\ city s2 = city searchingParis
  /\ (loading searchingParis = true -> weatherData searchingParis = None ->
      phase s1 = Error /\ phase s2 = Error
      /\ weatherData s1 = None /\ weatherData s2 = None).
Proof.
  apply (not_found_both_error_states searchingParis http404
           (http200 notFoundBody) notFoundBody); reflexivity.
Defined.

(** ** Error message and snapshot together *)

(** C5 fails on the code.  Enter is handled while a request is pending
    ([handleKeyDown] does not look at [loading], unlike the search button,
    which is disabled meanwhile), and a settling request writes one cell
    without clearing the other.  Two overlapping searches, the first
    answered with a snapshot and the second with HTTP 404, reach a state
    that holds both the error message and the snapshot. *)
Theorem overlapping_searches_hold_both :
  exists w : World,
    run None initialWorld overlappingSearches = Some w
    /\ error (ui w) = Some (lit "City not found. Please enter a valid city name.")
    /\ weatherData (ui w) = Some paris
    /\ loading (ui w) = false
    /\ inflight w = []
    /\ bothActive (ui w)
    /\ reachable None w.
Proof.
  eexists. split; [vm_compute; reflexivity|].
  repeat split; try reflexivity; try discriminate.
  exists overlappingSearches. vm_compute. reflexivity.
Qed.

Lemma handleSearch_orderly (API_KEY : option jsstring) (w : World) :
  orderly w -> loading (ui w) = false -> orderly (handleSearch API_KEY w).
Proof.
  intros Hw Hl. unfold handleSearch, fetchWeatherData.
  destruct (truthy (trim (city (ui w)))); simpl.
  - unfold orderly in *. destruct (inflight w) as [|r [|r' l]]; simpl.
    + repeat split; reflexivity.
    + destruct Hw as [Hw _]. congruence.
    + contradiction.
  - destruct w as [u fl]; exact Hw.
Qed.

Lemma settle_orderly (o : FetchOutcome) (s : UIState) :
  error s = None -> weatherData s = None ->
  loading (settle o s) = false /\ ~ bothActive (settle o s).
Proof.
  intros He Hd.
  destruct (settle_cases o s) as [(m & _ & ->) | (d & ->)]; simpl;
    (split; [reflexivity|]); unfold bothActive; simpl; intros [A B]; congruence.
Qed.

Lemma step_orderly (API_KEY : option jsstring) (w w' : World) (e : Event) :
  orderly w ->
  (forall key, e = KeyDown key -> loading (ui w) = false) ->
  step API_KEY w e = Some w' ->
  orderly w'.
Proof.
  intros Hw Hkey Hstep. destruct e as [v | key | | | i o]; simpl in Hstep.
  - destruct (errorPanelShown (ui w)); [discriminate|].
    injection Hstep as <-. unfold orderly in *. simpl.
    destruct (inflight w) as [|r [|r' l]]; exact Hw.
  - destruct (errorPanelShown (ui w)); [discriminate|].
    injection Hstep as <-. unfold handleKeyDown.
    destruct (jsstring_eqb key (lit "Enter")); [|exact Hw].
    apply handleSearch_orderly; [exact Hw | exact (Hkey key eq_refl)].
  - destruct (errorPanelShown (ui w)); [discriminate|].
    destruct (loading (ui w)) eqn:Hl; [discriminate|].
    injection Hstep as <-. apply handleSearch_orderly; assumption.
  - destruct (errorPanelShown (ui w)) eqn:Hp; [|discriminate].
    injection Hstep as <-. unfold orderly in *. simpl.
    destruct (inflight w) as [|r [|r' l]].
    + destruct Hw as [Hl _]. split; [exact Hl|].
      unfold bothActive; simpl. intros [A _]. congruence.
    + destruct Hw as (_ & He & _). unfold errorPanelShown in Hp.
      rewrite He in Hp. discriminate.
    + contradiction.
  - unfold orderly in Hw.
    destruct (inflight w) as [|r [|r' l]] eqn:Hfl; rewrite ?Hfl in Hstep.
    + destruct i; discriminate.
    + destruct Hw as (_ & He & Hd).
      destruct i as [|[|i]]; simpl in Hstep; try discriminate.
      injection Hstep as <-. unfold orderly. simpl.
      apply settle_orderly; assumption.
    + contradiction.
Qed.

(** ** Temperatures *)

(** [Math.round] is within a half of its argument, ties going up. *)
Lemma Math_round_nearest (x : Q) :
  (inject_Z (Math_round x) - (1 # 2) <= x < inject_Z (Math_round x) + (1 # 2))%Q.
Proof.
  unfold Math_round.
  pose proof (Qfloor_le (x + (1 # 2))) as H1.
  pose proof (Qlt_floor (x + (1 # 2))) as H2.
  rewrite inject_Z_plus in H2. change (inject_Z 1) with 1%Q in H2.
  split; lra.
Qed.

(** ... and it is the only integer that is. *)
Lemma Math_round_unique (x : Q) (n : Z) :
  (inject_Z n - (1 # 2) <= x < inject_Z n + (1 # 2))%Q -> Math_round x = n.
Proof.
  intros [H1 H2]. unfold Math_round.
  assert (A : n <= Qfloor (x + (1 # 2))).
  { rewrite <- (Qfloor_Z n). apply Qfloor_resp_le. lra. }
  assert (B : Qfloor (x + (1 # 2)) < n + 1).
  { pose proof (Qfloor_le (x + (1 # 2))) as H3.
    assert (C : (inject_Z (Qfloor (x + (1 # 2))) < inject_Z (n + 1))%Q).
    { rewrite inject_Z_plus. change (inject_Z 1) with 1%Q. lra. }
    rewrite <- Zlt_Qlt in C. exact C. }
  lia.
Qed.

Example Number_toString_examples :
  Number_toString 20 = lit "20"
  /\ Number_toString 0 = lit "0"
  /\ Number_toString (-7) = lit "-7".
Proof. repeat split; reflexivity. Qed.

(** In [src/unnamed/part_000], [formatTemperature] writes the integer
    nearest to the temperature and then the degree sign and "C". *)
Lemma Part000_formatTemperature_rounds (t : Q) :
  exists n : Z,
    (inject_Z n - (1 # 2) <= t < inject_Z n + (1 # 2))%Q
    /\ Part000.formatTemperature t = Number_toString n ++ [176%N; 67%N].
Proof.
  exists (Math_round t). split; [apply Math_round_nearest | reflexivity].
Qed.

(** Anything that rounds to zero, negative or not, prints without sign. *)
Lemma Part000_formatTemperature_zero (t : Q) :
  (- (1 # 2) <= t < 1 # 2)%Q ->
  Part000.formatTemperature t = lit "0" ++ [176%N; 67%N].
Proof.
  intros H. unfold Part000.formatTemperature.
  rewrite (Math_round_unique t 0); [reflexivity|].
  change (inject_Z 0) with 0%Q. lra.
Qed.

Example Part000_formatTemperature_examples :
  Part000.formatTemperature (39 # 2) = lit "20" ++ [176%N; 67%N]
  /\ Part000.formatTemperature minus_0_4 = lit "0" ++ [176%N; 67%N]
  /\ Part000.formatTemperature (-5 # 2) = lit "-2" ++ [176%N; 67%N].
Proof. repeat split; reflexivity. Qed.

(** C2 fails on [src/src/app/page.tsx].  Its template literal carries the
    code unit U+00C2 before the degree sign, so every temperature is
    followed by three code units instead of the degree sign and "C": 19.5
    gives "20" and
    then U+00C2 U+00B0 "C", -0.4 gives "0" and the same three units.  The
    rounding is as claimed; the suffix is not. *)
Theorem Page_formatTemperature_suffix :
  Page.formatTemperature (39 # 2) = lit "20" ++ [194%N; 176%N; 67%N]
  /\ Page.formatTemperature minus_0_4 = lit "0" ++ [194%N; 176%N; 67%N]
  /\ Page.formatTemperature (39 # 2) <> lit "20" ++ [176%N; 67%N]
  /\ Page.formatTemperature minus_0_4 <> lit "0" ++ [176%N; 67%N]
  /\ forall t : Q,
       Page.formatTemperature t
         = Number_toString (Math_round t) ++ [194%N; 176%N; 67%N]
       /\ Page.formatTemperature t
            <> Number_toString (Math_round t) ++ [176%N; 67%N].
Proof.
  split; [reflexivity|]. split; [reflexivity|].
  split; [vm_compute; discriminate|]. split; [vm_compute; discriminate|].
  intros t. split; [reflexivity|].
  unfold Page.formatTemperature. intros H.
  apply app_inv_head in H. discriminate H.
Qed.

(** ** Icons and themes *)

Lemma truthy_slice0_2 (s : jsstring) : truthy (slice0 2 s) = truthy s.
Proof. destruct s as [|a [|b r]]; reflexivity. Qed.

Lemma spec_category_unrecognized (p : jsstring) :
  ~ recognized p -> spec_category p = DefaultCategory.
Proof.
  intros H. unfold spec_category, conditionTable, lookupCategory.
  unfold recognized, conditionTable in H. cbn [map fst In] in H.
  repeat (rewrite jsstring_eqb_neq; [|intros E; apply H; rewrite E; tauto]).
  reflexivity.
Qed.

(** The [switch] of each revision agrees with the table. *)
Lemma Page_getWeatherIcon_category (iconCode : jsstring) (isDay : bool) :
  component (Page.getWeatherIcon iconCode isDay)
    = spec_icon (spec_category (slice0 2 iconCode)) isDay.
Proof.
  unfold Page.getWeatherIcon.
  destruct (truthy iconCode) eqn:T; cbn [negb].
  - cbv zeta. generalize (slice0 2 iconCode) as p. intros p.
    unfold spec_category, conditionTable.
    cbn [switch existsb lookupCategory].
    by_prefix_tests p; destruct isDay; reflexivity.
  - apply truthy_false_iff in T. subst iconCode. reflexivity.
Qed.

Lemma Part000_getWeatherIcon_category (iconCode : jsstring) (isDay : bool) :
  component (Part000.getWeatherIcon iconCode isDay)
    = spec_icon (spec_category (slice0 2 iconCode)) isDay.
Proof.
  unfold Part000.getWeatherIcon.
  destruct (truthy iconCode) eqn:T; cbn [negb].
  - cbv zeta. generalize (slice0 2 iconCode) as p. intros p.
    unfold spec_category, conditionTable.
    cbn [switch existsb lookupCategory].
    by_prefix_tests p; destruct isDay; reflexivity.
  - apply truthy_false_iff in T. subst iconCode. reflexivity.
Qed.

Lemma getWeatherIcon_same_prefix (a b : jsstring) (isDay : bool) :
  slice0 2 a = slice0 2 b ->
  Page.getWeatherIcon a isDay = Page.getWeatherIcon b isDay
  /\ Part000.getWeatherIcon a isDay = Part000.getWeatherIcon b isDay.
Proof.
  intros H.
  assert (T : truthy a = truthy b).
  { rewrite <- (truthy_slice0_2 a), <- (truthy_slice0_2 b), H. reflexivity. }
  unfold Page.getWeatherIcon, Part000.getWeatherIcon.
  rewrite T, H. split; reflexivity.
Qed.

(** C7.  In both revisions the icon drawn by [getWeatherIcon] is read off
    the first two code units of the code by the fixed table: two codes
    with the same prefix get the same element; "09" and "10" both give the
    rain cloud; "01" gives sun by day and moon by night, "02" and "03" the
    sunny cloud by day and the moonlit cloud by night; a prefix the table
    does not know gives the plain cloud.  The function is total, so no
    code makes it fail. *)
Theorem getWeatherIcon_by_prefix :
  forall (iconCode : jsstring) (isDay : bool),
    let prefix := slice0 2 iconCode in
    let page := Page.getWeatherIcon iconCode isDay in
    let part := Part000.getWeatherIcon iconCode isDay in
    (forall other : jsstring,
        slice0 2 other = prefix ->
        Page.getWeatherIcon other isDay = page
        /\ Part000.getWeatherIcon other isDay = part)
    /\ component page = spec_icon (spec_category prefix) isDay
    /\ component part = spec_icon (spec_category prefix) isDay
    /\ (prefix = lit "09" \/ prefix = lit "10" ->
        component page = CloudRain /\ component part = CloudRain)
    /\ (prefix = lit "01" ->
        component page = (if isDay then Sun else Moon)
        /\ component part = (if isDay then Sun else Moon))
    /\ (prefix = lit "02" \/ prefix = lit "03" ->
        component page = (if isDay then CloudSun else CloudMoon)
        /\ component part = (if isDay then CloudSun else CloudMoon))
    /\ (~ recognized prefix ->
        component page = Cloud /\ component part = Cloud).
Proof.
  intros iconCode isDay prefix page part. subst prefix page part.
  pose proof (Page_getWeatherIcon_category iconCode isDay) as HP.
  pose proof (Part000_getWeatherIcon_category iconCode isDay) as HQ.
  split; [intros other H; apply getWeatherIcon_same_prefix; exact H|].
  split; [exact HP|]. split; [exact HQ|].
  rewrite HP, HQ.
  split; [intros [-> | ->]; split; reflexivity|].
  split; [intros ->; split; reflexivity|].
  split; [intros [-> | ->]; split; reflexivity|].
  intros H. rewrite (spec_category_unrecognized _ H). split; reflexivity.
Qed.

Lemma getWeatherIcon_by_prefix_witness :
  component (Page.getWeatherIcon (lit "10d") true) = CloudRain
  /\ component (Part000.getWeatherIcon (lit "09n") false) = CloudRain
  /\ component (Part000.getWeatherIcon (lit "01n") false) = Moon
  /\ component (Page.getWeatherIcon (lit "99x") true) = Cloud
  /\ Part000.getWeatherIcon (lit "02d") true = Part000.getWeatherIcon (lit "02") true.
Proof.
  destruct (getWeatherIcon_by_prefix (lit "10d") true) as (_ & _ & _ & R1 & _).
  destruct (getWeatherIcon_by_prefix (lit "09n") false) as (_ & _ & _ & R2 & _).
  destruct (getWeatherIcon_by_prefix (lit "01n") false) as (_ & _ & _ & _ & C & _).
  destruct (getWeatherIcon_by_prefix (lit "99x") true) as (_ & _ & _ & _ & _ & _ & U).
  destruct (getWeatherIcon_by_prefix (lit "02") true) as (S & _).
  split; [apply R1; right; reflexivity|].
  split; [apply R2; left; reflexivity|].
  split; [apply C; reflexivity|].
  split; [apply U; vm_compute; intuition discriminate|].
  apply (S (lit "02d")). reflexivity.
Defined.

Lemma Part000_getBackgroundClass_category (weatherCode : jsstring)
    (isDay : bool) :
  Part000.getBackgroundClass (Some weatherCode) (Some isDay)
    = spec_theme (spec_category (slice0 2 weatherCode)) isDay.
Proof.
  unfold Part000.getBackgroundClass. cbn [truthy_opt].
  destruct (truthy weatherCode) eqn:T; cbn [negb].
  - cbv zeta. generalize (slice0 2 weatherCode) as p. intros p.
    unfold spec_category, conditionTable. cbn [lookupCategory].
    by_prefix_tests p; destruct isDay; reflexivity.
  - apply truthy_false_iff in T. subst weatherCode. reflexivity.
Qed.

(** C8.  [getBackgroundClass] reads the theme off the same prefix table
    as the icon: the category of the first two code units decides both.
    Every code that starts with "09" or with "10" gets the one rain theme;
    a prefix the table does not know, such as "99", gives the default
    theme, which is also the theme when no code (or no day flag with it)
    is passed; an absent day flag counts as night.  The function is
    total, so no code makes it fail. *)
Theorem getBackgroundClass_by_prefix :
  forall (weatherCode : jsstring) (isDay : bool),
    let prefix := firstn 2 weatherCode in
    let neutral :=
      lit "from-blue-100 to-blue-300 dark:from-gray-800 dark:to-gray-900" in
    let rain :=
      lit "from-gray-400 to-blue-500 dark:from-gray-700 dark:to-blue-900" in
    Part000.getBackgroundClass (Some weatherCode) (Some isDay)
      = spec_theme (spec_category prefix) isDay
    /\ component (Part000.getWeatherIcon weatherCode isDay)
         = spec_icon (spec_category prefix) isDay
    /\ (forall other : jsstring,
          firstn 2 other = prefix ->
          Part000.getBackgroundClass (Some other) (Some isDay)
            = Part000.getBackgroundClass (Some weatherCode) (Some isDay))
    /\ (prefix = lit "09" \/ prefix = lit "10" ->
        Part000.getBackgroundClass (Some weatherCode) (Some isDay) = rain)
    /\ (forall rest : jsstring,
          Part000.getBackgroundClass (Some (lit "09" ++ rest)) (Some isDay) = rain
          /\ Part000.getBackgroundClass (Some (lit "10" ++ rest)) (Some isDay) = rain
          /\ Part000.getBackgroundClass (Some (lit "99" ++ rest)) (Some isDay)
               = neutral)
    /\ (~ recognized prefix ->
        Part000.getBackgroundClass (Some weatherCode) (Some isDay) = neutral)
    /\ Part000.getBackgroundClass None None = neutral
    /\ Part000.getBackgroundClass None (Some isDay) = neutral
    /\ (forall s : UIState,
          weatherData s = None -> Part000.backgroundClass s = Some neutral)
    /\ Part000.getBackgroundClass (Some weatherCode) None
         = Part000.getBackgroundClass (Some weatherCode) (Some false).
Proof.
  intros weatherCode isDay prefix neutral rain. subst prefix neutral rain.
  change (firstn 2 weatherCode) with (slice0 2 weatherCode).
  pose proof (Part000_getBackgroundClass_category weatherCode isDay) as HB.
  split; [exact HB|].
  split; [apply Part000_getWeatherIcon_category|].
  split.
  { intros other H. change (firstn 2 other) with (slice0 2 other) in H.
    rewrite (Part000_getBackgroundClass_category other isDay), H.
    symmetry; exact HB. }
  split; [rewrite HB; intros [-> | ->]; reflexivity|].
  split.
  { intros rest. rewrite !Part000_getBackgroundClass_category.
    repeat split; reflexivity. }
  rewrite HB.
  split; [intros H; rewrite (spec_category_unrecognized _ H); reflexivity|].
  split; [reflexivity|]. split; [reflexivity|].
  split; [|reflexivity].
  intros s H. unfold Part000.backgroundClass. rewrite H. reflexivity.
Qed.

Lemma getBackgroundClass_by_prefix_witness :
  Part000.getBackgroundClass (Some (lit "09d")) (Some true)
    = lit "from-gray-400 to-blue-500 dark:from-gray-700 dark:to-blue-900"
  /\ Part000.getBackgroundClass (Some (lit "10n")) (Some true)
       = lit "from-gray-400 to-blue-500 dark:from-gray-700 dark:to-blue-900"
  /\ Part000.getBackgroundClass (Some (lit "99x")) (Some true)
       = lit "from-blue-100 to-blue-300 dark:from-gray-800 dark:to-gray-900"
  /\ Part000.backgroundClass initialState
       = Some (lit "from-blue-100 to-blue-300 dark:from-gray-800 dark:to-gray-900").
Proof.
  destruct (getBackgroundClass_by_prefix (lit "09d") true)
    as (_ & _ & _ & R1 & _).
  destruct (getBackgroundClass_by_prefix (lit "10n") true)
    as (_ & _ & _ & R2 & _).
  destruct (getBackgroundClass_by_prefix (lit "99x") true)
    as (_ & _ & _ & _ & _ & U & _ & _ & B & _).
  split; [apply R1; left; reflexivity|].
  split; [apply R2; right; reflexivity|].
  split; [apply U; vm_compute; intuition discriminate|].
  apply B. reflexivity.
Defined.

(** ** Dates and times *)

(** The formatter does follow the machine's zone when no [timeZone] is
    asked for: the same instant reads differently in London and in
    Kolkata. *)
Example host_zone_shows_without_option :
  let options := {| weekday := None; year := None; month := None; day := None;
                    hour := Some (lit "2-digit"); minute := Some (lit "2-digit");
                    timeZone := None |} in
  toLocaleTimeString hostInLondon (new_Date 1700043600000) [] options = lit "10:20"
  /\ toLocaleTimeString hostInKolkata (new_Date 1700043600000) [] options = lit "15:50".
Proof. split; reflexivity. Qed.

Example getFormattedTime_examples :
  getFormattedTime hostInLondon 1700040000 3600 = lit "10:20"
  /\ getFormattedTime hostInKolkata 1700040000 3600 = lit "10:20"
  /\ getFormattedTime hostInKolkata 1700043600 0 = lit "10:20"
  /\ getFormattedTime hostInKolkata 8640000000000 1 = lit "Invalid Date".
Proof. repeat split; reflexivity. Qed.

(** C9.  [getFormattedTime] and [getFormattedDate] render the wall-clock
    time [(epochSeconds + utcOffsetSeconds) * 1000] as it stands: the
    formatter is asked for the zone "UTC", which adds nothing, and the
    machine's own zone is not consulted.  So replacing the machine's zone
    by any other changes neither output, and each output is a function of
    the sum [epochSeconds + utcOffsetSeconds] alone. *)
Theorem formatting_ignores_host_zone :
  forall (h : Host) (epochSeconds utcOffsetSeconds : Z),
    let shifted := epochSeconds + utcOffsetSeconds in
    (forall zone : TimeZone,
        getFormattedTime (withTimeZone h zone) epochSeconds utcOffsetSeconds
          = getFormattedTime h epochSeconds utcOffsetSeconds
        /\ getFormattedDate (withTimeZone h zone) epochSeconds utcOffsetSeconds
             = getFormattedDate h epochSeconds utcOffsetSeconds)
    /\ getFormattedTime h epochSeconds utcOffsetSeconds
         = getFormattedTime h shifted 0
    /\ getFormattedDate h epochSeconds utcOffsetSeconds
         = getFormattedDate h shifted 0
    /\ getFormattedTime h epochSeconds utcOffsetSeconds
         = (if Z.abs (shifted * 1000) <=? 8640000000000000
            then cldr h (defaultLocale h)
                   {| weekday := None; year := None; month := None; day := None;
                      hour := Some (lit "2-digit");
                      minute := Some (lit "2-digit");
                      timeZone := Some (lit "UTC") |}
                   (shifted * 1000)
            else lit "Invalid Date")
    /\ getFormattedDate h epochSeconds utcOffsetSeconds
         = (if Z.abs (shifted * 1000) <=? 8640000000000000
            then cldr h (defaultLocale h)
                   {| weekday := Some (lit "long");
                      year := Some (lit "numeric");
                      month := Some (lit "long");
                      day := Some (lit "numeric");
                      hour := None; minute := None;
                      timeZone := Some (lit "UTC") |}
                   (shifted * 1000)
            else lit "Invalid Date").
Proof.
  intros h e o shifted. subst shifted.
  unfold getFormattedTime, getFormattedDate, toLocaleTimeString,
    toLocaleDateString, DateTimeFormat_format, new_Date.
  cbv zeta. rewrite Z.add_0_r.
  split; [|split; [reflexivity | split; [reflexivity|]]].
  - intros zone. split;
      (destruct (Z.abs ((e + o) * 1000) <=? 8640000000000000); reflexivity).
  - split;
      (destruct (Z.abs ((e + o) * 1000) <=? 8640000000000000); cbn;
       rewrite ?Z.add_0_r; reflexivity).
Qed.

(** * Further properties of the code *)

(** ** Settling, path by path *)

(** Every outcome either stores its snapshot or leaves a message. *)
Lemma settle_by_snapshotOf (o : FetchOutcome) :
  match snapshotOf o with
  | Some d => forall s, settle o s = setLoading false (setWeatherData (Some d) s)
  | None => exists m, truthy m = true
                      /\ forall s, settle o s = setLoading false (setError (Some m) s)
  end.
Proof.
  unfold snapshotOf. destruct o as [r | e].
  - destruct (ok r) eqn:Hok.
    + destruct (json r) as [d | e] eqn:J.
      * destruct (cod d =? 404) eqn:C.
        -- exists (lit "City not found"). split; [reflexivity|].
           intros s. rewrite (settle_body r d s Hok J), C. reflexivity.
        -- intros s. rewrite (settle_body r d s Hok J), C. reflexivity.
      * eexists. split; [|intros s; apply (settle_json_throws r e s Hok J)].
        apply or_else_truthy; reflexivity.
    + eexists. split; [|intros s; apply (settle_http_error r s Hok)].
      destruct (status r =? 404); reflexivity.
  - eexists. split; [|intros s; apply settle_rejected].
    apply or_else_truthy; reflexivity.
Qed.

(** X1.  No success is lost and no failure is swallowed.  When the
    response is [ok], its body parses and the body's [cod] is not 404,
    exactly that body is stored and the error cell is left as it was.  In
    every other case the settled state shows the error panel with a
    non-empty message and the snapshot cell is left as it was. *)
Theorem settle_error_or_snapshot :
  forall (o : FetchOutcome) (s : UIState),
    (forall r d,
        o = Fulfilled r -> ok r = true -> json r = JsonOk d -> cod d <> 404 ->
        weatherData (settle o s) = Some d
        /\ error (settle o s) = error s)
    /\ ((forall r d,
            o = Fulfilled r -> ok r = true -> json r = JsonOk d -> cod d = 404) ->
        exists m,
          error (settle o s) = Some m
          /\ truthy m = true
          /\ errorPanelShown (settle o s) = true
          /\ weatherData (settle o s) = weatherData s).
Proof.
  intros o s. split.
  - intros r d -> Hok J C.
    rewrite (settle_body r d s Hok J).
    apply Z.eqb_neq in C. rewrite C. split; reflexivity.
  - intros H.
    assert (N : snapshotOf o = None).
    { unfold snapshotOf. destruct o as [r | e]; [|reflexivity].
      destruct (ok r) eqn:Hok; [|reflexivity].
      destruct (json r) as [d | e] eqn:J; [|reflexivity].
      rewrite (H r d eq_refl Hok J). reflexivity. }
    pose proof (settle_by_snapshotOf o) as Hs. rewrite N in Hs.
    destruct Hs as (m & Hm & Hs). exists m. rewrite Hs.
    unfold errorPanelShown. simpl. repeat split; auto.
Qed.

Lemma settle_error_or_snapshot_witness :
  (weatherData (settle (Fulfilled (http200 paris)) searchingParis) = Some paris
   /\ error (settle (Fulfilled (http200 paris)) searchingParis)
        = error searchingParis)
  /\ exists m,
       error (settle (Fulfilled http500) searchingParis) = Some m
       /\ truthy m = true
       /\ errorPanelShown (settle (Fulfilled http500) searchingParis) = true
       /\ weatherData (settle (Fulfilled http500) searchingParis)
            = weatherData searchingParis.
Proof.
  destruct (settle_error_or_snapshot (Fulfilled (http200 paris)) searchingParis)
    as [A _].
  destruct (settle_error_or_snapshot (Fulfilled http500) searchingParis)
    as [_ B].
  split.
  - apply (A (http200 paris) paris); [reflexivity | reflexivity | reflexivity |].
    discriminate.
  - apply B. intros r d E Hok. injection E as <-. discriminate Hok.
Defined.

(** X2.  The [finally] clause runs on every path: a settled request
    always turns loading off, and never touches the query text. *)
Theorem settle_ends_loading :
  forall (o : FetchOutcome) (s : UIState),
    loading (settle o s) = false /\ city (settle o s) = city s.
Proof.
  intros o s. pose proof (settle_by_snapshotOf o) as H.
  destruct (snapshotOf o) as [d|].
  - rewrite H. split; reflexivity.
  - destruct H as (m & _ & H). rewrite H. split; reflexivity.
Qed.

(** X3.  The body of a response that is not [ok] is never read: the
    settled state depends on the status alone, with the not-found message
    for 404 and the generic message for every other status outside
    200-299. *)
Theorem http_failure_ignores_body :
  forall (r : Response) (body : JsonResult) (s : UIState),
    ok r = false ->
    settle (Fulfilled r) s
      = settle (Fulfilled {| status := status r; json := body |}) s
    /\ (status r <> 404 ->
        error (settle (Fulfilled r) s)
          = Some (lit "An error occurred while fetching weather data.")).
Proof.
  intros r body s H. split.
  - rewrite (settle_http_error r s H).
    rewrite (settle_http_error {| status := status r; json := body |} s H).
    reflexivity.
  - intros N. rewrite (settle_http_error r s H).
    apply Z.eqb_neq in N. rewrite N. reflexivity.
Qed.

Lemma http_failure_ignores_body_witness :
  settle (Fulfilled http500) searchingParis
    = settle (Fulfilled {| status := status http500; json := JsonOk paris |})
        searchingParis
  /\ error (settle (Fulfilled http500) searchingParis)
       = Some (lit "An error occurred while fetching weather data.").
Proof.
  destruct (http_failure_ignores_body http500 (JsonOk paris) searchingParis)
    as [A B]; [reflexivity|].
  split; [exact A | apply B; discriminate].
Defined.

(** X4.  A body that fails to parse is handled by the same [catch] as a
    fetch that fails: both leave the same state, whose message is the
    exception's own when it has a non-empty one and "An unexpected error
    occurred." otherwise. *)
Theorem parse_failure_like_network_failure :
  forall (r : Response) (e : JsError) (s : UIState),
    ok r = true ->
    json r = JsonThrows e ->
    settle (Fulfilled r) s = settle (Rejected e) s
    /\ error (settle (Rejected e) s)
         = Some (match err_message e with
                 | Some (c :: m) => c :: m
                 | _ => lit "An unexpected error occurred."
                 end).
Proof.
  intros r e s Hok J. split.
  - rewrite (settle_json_throws r e s Hok J), settle_rejected. reflexivity.
  - rewrite settle_rejected. destruct e as [[[|c m]|]]; reflexivity.
Qed.

Lemma parse_failure_like_network_failure_witness :
  settle (Fulfilled garbled) searchingParis
    = settle (Rejected {| err_message := Some (lit "Unexpected token < in JSON") |})
        searchingParis
  /\ error (settle (Rejected {| err_message := Some (lit "Unexpected token < in JSON") |})
              searchingParis)
       = Some (lit "Unexpected token < in JSON").
Proof.
  apply (parse_failure_like_network_failure garbled
           {| err_message := Some (lit "Unexpected token < in JSON") |}
           searchingParis); reflexivity.
Defined.

(** X5.  There is no request token: of two requests that settle the same
    way (both with an error, or both with a snapshot) the one that settles
    last wins, whatever the order they were sent in. *)
Theorem last_settled_wins :
  forall (o1 o2 : FetchOutcome) (s : UIState),
    (snapshotOf o1 = None <-> snapshotOf o2 = None) ->
    settle o2 (settle o1 s) = settle o2 s.
Proof.
  intros o1 o2 s H.
  pose proof (settle_by_snapshotOf o1) as H1.
  pose proof (settle_by_snapshotOf o2) as H2.
  destruct (snapshotOf o1) as [d1|], (snapshotOf o2) as [d2|].
  - rewrite !H2, H1. reflexivity.
  - destruct H as [_ H]. specialize (H eq_refl). discriminate.
  - destruct H as [H _]. specialize (H eq_refl). discriminate.
  - destruct H1 as (m1 & _ & H1), H2 as (m2 & _ & H2).
    rewrite !H2, H1. reflexivity.
Qed.

Lemma last_settled_wins_witness :
  settle (Fulfilled http404) (settle (Fulfilled http500) searchingParis)
    = settle (Fulfilled http404) searchingParis.
Proof.
  apply (last_settled_wins (Fulfilled http500) (Fulfilled http404) searchingParis).
  split; reflexivity.
Defined.

(** ** Runs of the page without overlapping searches *)

Lemma initialWorld_orderly : orderly initialWorld.
Proof.
  unfold orderly; simpl. split; [reflexivity|].
  unfold bothActive; simpl. intros [A _]. congruence.
Qed.

(** An event other than Enter keeps a world orderly: the button is
    disabled while loading, the other controls start nothing. *)
Lemma step_orderly_no_enter (API_KEY : option jsstring) (w w' : World)
    (e : Event) :
  orderly w -> pressesEnter e = false -> step API_KEY w e = Some w' -> orderly w'.
Proof.
  intros Hw He Hs.
  assert (G : (forall key, e <> KeyDown key) -> orderly w').
  { intros N. apply (step_orderly API_KEY w w' e Hw); [|exact Hs].
    intros key E. destruct (N key E). }
  destruct e as [v | key | | | i o]; try (apply G; discriminate).
  unfold pressesEnter in He. unfold step, handleKeyDown in Hs. rewrite He in Hs.
  destruct (errorPanelShown (ui w)); [discriminate|].
  injection Hs as <-. exact Hw.
Qed.

(** So does Enter, pressed while the page is not loading. *)
Lemma step_orderly_enter (API_KEY : option jsstring) (w w' : World)
    (e : Event) :
  orderly w ->
  (pressesEnter e = true -> loading (ui w) = false) ->
  step API_KEY w e = Some w' ->
  orderly w'.
Proof.
  intros Hw He Hs. destruct (pressesEnter e) eqn:P.
  - apply (step_orderly API_KEY w w' e Hw); [|exact Hs].
    intros key _. apply He. reflexivity.
  - apply (step_orderly_no_enter API_KEY w w' e Hw P Hs).
Qed.

Lemma run_keeps_orderly (API_KEY : option jsstring) (es : list Event) :
  forall w0 w1 : World,
    orderly w0 ->
    enterOnlyWhenIdle API_KEY w0 es ->
    run API_KEY w0 es = Some w1 ->
    orderly w1.
Proof.
  induction es as [|e es' IH]; simpl; intros w0 w1 H0 Hi Hr.
  - injection Hr as <-. exact H0.
  - destruct Hi as [Hk Hrest].
    destruct (step API_KEY w0 e) as [w0'|] eqn:Hs; [|discriminate].
    apply (IH w0' w1); auto.
    apply (step_orderly_enter API_KEY w0 w0' e); assumption.
Qed.

Lemma buttonOnly_keeps_orderly (API_KEY : option jsstring) (es : list Event) :
  forall w0 w1 : World,
    orderly w0 -> buttonOnly es -> run API_KEY w0 es = Some w1 -> orderly w1.
Proof.
  induction es as [|e es' IH]; simpl; intros w0 w1 H0 Hb Hr.
  - injection Hr as <-. exact H0.
  - inversion Hb as [|e0 l He Hl]; subst.
    destruct (step API_KEY w0 e) as [w0'|] eqn:Hs; [|discriminate].
    apply (IH w0' w1); auto.
    apply (step_orderly_no_enter API_KEY w0 w0' e); assumption.
Qed.

(** What an orderly world tells about the cells. *)
Lemma orderly_facts (w : World) :
  orderly w ->
  (List.length (inflight w) <= 1)%nat
  /\ (loading (ui w) = true <-> inflight w <> [])
  /\ ~ bothActive (ui w).
Proof.
  unfold orderly. destruct (inflight w) as [|r [|r' l]]; simpl.
  - intros [Hl Hb]. split; [apply Nat.le_0_l|]. split; [|exact Hb].
    split; intros H; [congruence | contradiction].
  - intros (Hl & He & Hd). split; [apply Nat.le_refl|]. split.
    + split; intros _; [discriminate | exact Hl].
    + unfold bothActive. intros [A _]. congruence.
  - contradiction.
Qed.

(** X6.  As long as Enter is not pressed while the page is loading
    (any other key may be), the error message and the snapshot are never
    held together. *)
Theorem orderly_runs_exclusive :
  forall (API_KEY : option jsstring) (es : list Event) (w : World),
    enterOnlyWhenIdle API_KEY initialWorld es ->
    run API_KEY initialWorld es = Some w ->
    ~ bothActive (ui w).
Proof.
  intros API_KEY es w Hi Hr.
  destruct (orderly_facts w) as (_ & _ & A); [|exact A].
  apply (run_keeps_orderly API_KEY es initialWorld w);
    [apply initialWorld_orderly | exact Hi | exact Hr].
Qed.

Lemma orderly_runs_exclusive_witness :
  ~ bothActive
      (ui {| ui := settle (Fulfilled http404) searchingParis; inflight := [] |}).
Proof.
  apply (orderly_runs_exclusive None
           [Change (lit "Paris"); KeyDown (lit "Enter"); KeyDown (lit "a");
            Settle 0 (Fulfilled http404)]).
  - simpl. repeat split; intros; try discriminate; reflexivity.
  - reflexivity.
Defined.

(** X7.  As long as Enter is not pressed while the page is loading (any
    other key may be), the loading flag tells the truth: at most one request is in flight, and
    the page is loading exactly when one is. *)
Theorem orderly_runs_track_loading :
  forall (API_KEY : option jsstring) (es : list Event) (w : World),
    enterOnlyWhenIdle API_KEY initialWorld es ->
    run API_KEY initialWorld es = Some w ->
    (List.length (inflight w) <= 1)%nat
    /\ (loading (ui w) = true <-> inflight w <> []).
Proof.
  intros API_KEY es w Hi Hr.
  destruct (orderly_facts w) as (A & B & _); [|split; assumption].
  apply (run_keeps_orderly API_KEY es initialWorld w);
    [apply initialWorld_orderly | exact Hi | exact Hr].
Qed.

Lemma orderly_runs_track_loading_witness :
  (List.length (inflight {| ui := searchingParis; inflight := [ {| url :=
      lit "https://api.openweathermap.org/data/2.5/weather?q=Paris&appid=undefined&units=metric" |} ] |})
     <= 1)%nat
  /\ (loading (ui {| ui := searchingParis; inflight := [ {| url :=
        lit "https://api.openweathermap.org/data/2.5/weather?q=Paris&appid=undefined&units=metric" |} ] |})
        = true
      <-> inflight {| ui := searchingParis; inflight := [ {| url :=
            lit "https://api.openweathermap.org/data/2.5/weather?q=Paris&appid=undefined&units=metric" |} ] |}
          <> []).
Proof.
  apply (orderly_runs_track_loading None
           [Change (lit "Paris"); KeyDown (lit "Enter"); KeyDown (lit "a")]).
  - simpl. repeat split; intros; try discriminate; reflexivity.
  - reflexivity.
Defined.

(** X8.  The search button cannot start overlapping requests: in a run
    without Enter there is never more than one request in flight, the
    page is loading exactly while there is one, and the error message and
    the snapshot are never held together. *)
Theorem button_only_never_overlaps :
  forall (API_KEY : option jsstring) (es : list Event) (w : World),
    buttonOnly es ->
    run API_KEY initialWorld es = Some w ->
    (List.length (inflight w) <= 1)%nat
    /\ (loading (ui w) = true <-> inflight w <> [])
    /\ ~ bothActive (ui w).
Proof.
  intros API_KEY es w Hb Hr. apply orderly_facts.
  apply (buttonOnly_keeps_orderly API_KEY es initialWorld w);
    [apply initialWorld_orderly | exact Hb | exact Hr].
Qed.

Lemma button_only_never_overlaps_witness :
  (List.length (inflight (showing (lit "Paris") paris)) <= 1)%nat
  /\ (loading (ui (showing (lit "Paris") paris)) = true
      <-> inflight (showing (lit "Paris") paris) <> [])
  /\ ~ bothActive (ui (showing (lit "Paris") paris)).
Proof.
  apply (button_only_never_overlaps None
           [Change (lit "Paris"); ClickSearch; Settle 0 (Fulfilled (http200 paris))]).
  - repeat constructor.
  - reflexivity.
Defined.

(** X9.  In a run in which Enter is not pressed while the page is
    loading (any other key may be), the button of the error panel puts
    the page back exactly where it started: no message, no
    snapshot, not loading, an empty query and nothing in flight. *)
Theorem dismiss_resets_page :
  forall (API_KEY : option jsstring) (es : list Event) (w w' : World),
    enterOnlyWhenIdle API_KEY initialWorld es ->
    run API_KEY initialWorld es = Some w ->
    step API_KEY w ClickDismiss = Some w' ->
    w' = initialWorld.
Proof.
  intros API_KEY es w w' Hi Hr Hs.
  assert (Ho : orderly w).
  { apply (run_keeps_orderly API_KEY es initialWorld w);
      [apply initialWorld_orderly | exact Hi | exact Hr]. }
  simpl in Hs. destruct (errorPanelShown (ui w)) eqn:Hp; [|discriminate].
  injection Hs as <-.
  destruct w as [[c d l e] fl]. unfold orderly, errorPanelShown in *. simpl in *.
  destruct e as [m|]; [|discriminate].
  destruct fl as [|r [|r' fl]].
  - destruct Ho as [Hl Hb]. subst l.
    destruct d as [d|]; [|reflexivity].
    exfalso. apply Hb. unfold bothActive; simpl. split; discriminate.
  - destruct Ho as (_ & He & _). discriminate.
  - contradiction.
Qed.

Lemma dismiss_resets_page_witness :
  {| ui := dismiss (settle (Fulfilled http404) searchingParis); inflight := [] |}
    = initialWorld.
Proof.
  apply (dismiss_resets_page None
           [Change (lit "Paris"); ClickSearch; KeyDown (lit "a");
            Settle 0 (Fulfilled http404)]
           {| ui := settle (Fulfilled http404) searchingParis; inflight := [] |}).
  - simpl. repeat split; intros; try discriminate; reflexivity.
  - reflexivity.
  - reflexivity.
Defined.

(** X10.  One whole search.  For a query that is not blank, typing it,
    starting the search (by the button or by Enter, to the same effect)
    and letting the request settle ends with nothing in flight and, for
    an outcome that stores a snapshot, in the state that shows exactly
    that snapshot; for every other outcome, in an error state with a
    non-empty message and no snapshot, from which the error panel's
    button leads back to the initial page. *)
Theorem one_search :
  forall (API_KEY : option jsstring) (c : jsstring) (o : FetchOutcome),
    ~ blank c ->
    run API_KEY initialWorld [Change c; KeyDown (lit "Enter"); Settle 0 o]
      = run API_KEY initialWorld [Change c; ClickSearch; Settle 0 o]
    /\ match snapshotOf o with
       | Some d =>
           run API_KEY initialWorld [Change c; ClickSearch; Settle 0 o]
             = Some (showing c d)
       | None =>
           exists m,
             truthy m = true
             /\ run API_KEY initialWorld [Change c; ClickSearch; Settle 0 o]
                  = Some {| ui := {| city := c; weatherData := None;
                                     loading := false; error := Some m |};
                            inflight := [] |}
             /\ run API_KEY initialWorld
                  [Change c; ClickSearch; Settle 0 o; ClickDismiss]
                  = Some initialWorld
       end.
Proof.
  intros API_KEY c o Hc.
  assert (T : truthy (trim c) = true).
  { destruct (truthy (trim c)) eqn:E; [reflexivity|].
    apply truthy_false_iff, trim_nil_iff in E. contradiction. }
  assert (S1 : step API_KEY initialWorld (Change c)
               = Some {| ui := setCity c initialState; inflight := [] |})
    by reflexivity.
  pose proof (settle_by_snapshotOf o) as Hset.
  split.
  - unfold run. rewrite S1. simpl. unfold handleKeyDown, handleSearch,
      fetchWeatherData. simpl. rewrite T. reflexivity.
  - unfold run. rewrite S1. simpl. unfold handleSearch, fetchWeatherData.
    simpl. rewrite T. simpl.
    destruct (snapshotOf o) as [d|].
    + rewrite Hset. reflexivity.
    + destruct Hset as (m & Hm & Hset). exists m. split; [exact Hm|].
      rewrite Hset. simpl. unfold errorPanelShown. simpl. rewrite Hm.
      split; reflexivity.
Qed.

Lemma one_search_witness :
  run None initialWorld
    [Change (lit "Paris"); KeyDown (lit "Enter"); Settle 0 (Fulfilled (http200 paris))]
    = run None initialWorld
        [Change (lit "Paris"); ClickSearch; Settle 0 (Fulfilled (http200 paris))]
  /\ run None initialWorld
       [Change (lit "Paris"); ClickSearch; Settle 0 (Fulfilled (http200 paris))]
       = Some (showing (lit "Paris") paris).
Proof.
  apply (one_search None (lit "Paris") (Fulfilled (http200 paris))).
  intros H. apply trim_nil_iff in H. vm_compute in H. discriminate H.
Defined.

(** ** The guard of the search: [trim] *)

Lemma trimStart_split (s : jsstring) :
  exists pre, s = pre ++ trimStart s /\ blank pre.
Proof.
  induction s as [|c s (pre & E & B)]; simpl.
  - exists []. split; [reflexivity | constructor].
  - destruct (isWhiteSpace c) eqn:W.
    + exists (c :: pre). split; [simpl; f_equal; exact E|].
      constructor; assumption.
    + exists []. split; [reflexivity | constructor].
Qed.

Lemma trimStart_no_leading (s : jsstring) :
  existsb isWhiteSpace (firstn 1 (trimStart s)) = false.
Proof.
  destruct (trimStart_head s) as [E | (c & r & E & W)]; rewrite E; simpl;
    [reflexivity | rewrite W; reflexivity].
Qed.

Lemma trimStart_fixed (s : jsstring) :
  existsb isWhiteSpace (firstn 1 s) = false -> trimStart s = s.
Proof.
  destruct s as [|c s]; simpl; [reflexivity|].
  rewrite orb_false_r. intros W. rewrite W. reflexivity.
Qed.

Lemma blank_rev' (s : jsstring) : blank s -> blank (rev s).
Proof.
  intros H. apply blank_rev. rewrite rev_involutive. exact H.
Qed.

Lemma trimEnd_split (s : jsstring) :
  exists post, s = trimEnd s ++ post /\ blank post.
Proof.
  unfold trimEnd. destruct (trimStart_split (rev s)) as (pre & E & B).
  exists (rev pre). split; [|apply blank_rev'; exact B].
  rewrite <- rev_app_distr, <- E, rev_involutive. reflexivity.
Qed.

(** X11.  What [trim] returns sits inside the string between a blank
    prefix and a blank suffix, and neither starts nor ends with a
    whitespace unit; trimming twice changes nothing more.  So the guard of
    [fetchWeatherData] looks only at whether some non-whitespace unit
    exists, wherever it stands. *)
Theorem trim_characterised :
  forall s : jsstring,
    (exists pre post, s = pre ++ trim s ++ post /\ blank pre /\ blank post)
    /\ existsb isWhiteSpace (firstn 1 (trim s)) = false
    /\ existsb isWhiteSpace (firstn 1 (rev (trim s))) = false
    /\ trim (trim s) = trim s.
Proof.
  intros s.
  assert (L : existsb isWhiteSpace (firstn 1 (trim s)) = false).
  { unfold trim.
    destruct (trimEnd_split (trimStart s)) as (post & E & _).
    pose proof (trimStart_no_leading s) as H. rewrite E in H.
    destruct (trimEnd (trimStart s)) as [|c r]; [reflexivity|].
    simpl in *. exact H. }
  assert (R : existsb isWhiteSpace (firstn 1 (rev (trim s))) = false).
  { unfold trim, trimEnd. rewrite rev_involutive. apply trimStart_no_leading. }
  split; [|split; [exact L | split; [exact R|]]].
  - destruct (trimStart_split s) as (pre & E1 & B1).
    destruct (trimEnd_split (trimStart s)) as (post & E2 & B2).
    exists pre, post. unfold trim. rewrite <- E2. auto.
  - unfold trim at 1. rewrite (trimStart_fixed _ L).
    unfold trimEnd. rewrite (trimStart_fixed _ R). apply rev_involutive.
Qed.

(** ** Temperatures, continued *)

Lemma lit_inj (a b : string) : lit a = lit b -> a = b.
Proof.
  revert b; induction a as [|x a IH]; intros [|y b]; simpl; intros H;
    try discriminate; [reflexivity|].
  injection H as Hx Hr. f_equal; [|apply IH; exact Hr].
  rewrite <- (ascii_N_embedding x), <- (ascii_N_embedding y), Hx. reflexivity.
Qed.

(** Different integers print differently. *)
Lemma Number_toString_inj (n m : Z) :
  Number_toString n = Number_toString m -> n = m.
Proof.
  unfold Number_toString. intros H. apply lit_inj in H.
  apply to_int_inj.
  assert (E : Some (Z.to_int n) = Some (Z.to_int m)).
  { rewrite <- (NilEmpty.isi (Z.to_int n)), <- (NilEmpty.isi (Z.to_int m)), H.
    reflexivity. }
  injection E; auto.
Qed.

(** X12.  In [src/unnamed/part_000], a temperature within a half of the
    integer [n] (the upper half excluded), for [n] of magnitude at most
    2^53, is shown as [n] in decimal, followed by the degree sign and
    "C". *)
Theorem Part000_formatTemperature_nearest :
  forall (t : Q) (n : Z),
    safe n ->
    (inject_Z n - (1 # 2) <= t < inject_Z n + (1 # 2))%Q ->
    Part000.formatTemperature t = Number_toString n ++ [176%N; 67%N].
Proof.
  intros t n _ H. unfold Part000.formatTemperature.
  rewrite (Math_round_unique t n H). reflexivity.
Qed.

Lemma Part000_formatTemperature_nearest_witness :
  Part000.formatTemperature (-5 # 2) = Number_toString (-2) ++ [176%N; 67%N].
Proof.
  apply (Part000_formatTemperature_nearest (-5 # 2) (-2)).
  - unfold safe. simpl. lia.
  - split; [apply Qle_bool_iff; reflexivity | reflexivity].
Defined.

(** X13.  In both revisions two temperatures are shown by the same text
    exactly when they round to the same integer: the display loses the
    fraction and nothing else. *)
Theorem formatTemperature_same_text :
  forall t1 t2 : Q,
    (Page.formatTemperature t1 = Page.formatTemperature t2
       <-> Math_round t1 = Math_round t2)
    /\ (Part000.formatTemperature t1 = Part000.formatTemperature t2
          <-> Math_round t1 = Math_round t2).
Proof.
  intros t1 t2. unfold Page.formatTemperature, Part000.formatTemperature.
  split; split; intros H.
  - apply app_inv_tail in H. apply Number_toString_inj; exact H.
  - rewrite H; reflexivity.
  - apply app_inv_tail in H. apply Number_toString_inj; exact H.
  - rewrite H; reflexivity.
Qed.

Lemma formatTemperature_same_text_witness :
  Part000.formatTemperature (39 # 2) = Part000.formatTemperature (101 # 5)
  /\ Math_round (39 # 2) <> Math_round (97 # 5).
Proof.
  destruct (formatTemperature_same_text (39 # 2) (101 # 5)) as [_ [_ A]].
  destruct (formatTemperature_same_text (39 # 2) (97 # 5)) as [_ [B _]].
  split; [apply A; reflexivity|].
  intros E. pose proof (B (f_equal (fun n => Number_toString n ++ [176%N; 67%N]) E)).
  discriminate.
Defined.

(** ** Day or night, continued *)

(** X14.  The times [getDayOrNight] calls day form one stretch: between
    two day times whose shifted values have magnitude at most 2^53, every
    time is day.  With the sunset before the sunrise, both of shifted
    magnitude at most 2^53, the stretch is empty and every time is
    night. *)
Theorem getDayOrNight_one_stretch :
  forall timezone sunrise sunset : Z,
    (forall t1 t t2 : Z,
        safe (t1 + timezone) ->
        safe (t2 + timezone) ->
        getDayOrNight t1 timezone sunrise sunset = true ->
        getDayOrNight t2 timezone sunrise sunset = true ->
        t1 <= t <= t2 ->
        getDayOrNight t timezone sunrise sunset = true)
    /\ (safe (sunrise + timezone) ->
        safe (sunset + timezone) ->
        sunset < sunrise ->
        forall t : Z, getDayOrNight t timezone sunrise sunset = false).
Proof.
  intros tz sr ss. unfold getDayOrNight. cbv zeta. split.
  - intros t1 t t2 S1 S2 H1 H2 Ht.
    assert (S : safe (t + tz)) by (unfold safe in *; lia).
    rewrite (number_add_safe _ _ S1) in H1.
    rewrite (number_add_safe _ _ S2) in H2.
    rewrite (number_add_safe _ _ S).
    apply andb_true_iff in H1. apply andb_true_iff in H2.
    destruct H1 as [H1 _], H2 as [_ H2].
    unfold number_geb in *.
    apply andb_true_iff.
    destruct (number_add sr tz), (number_add ss tz); simpl in *;
      try discriminate; rewrite ?Z.leb_le in *; split; try reflexivity; lia.
  - intros Sr Ss H t.
    rewrite (number_add_safe _ _ Sr), (number_add_safe _ _ Ss).
    unfold number_geb.
    destruct (number_add t tz) as [l | |]; simpl; try reflexivity.
    + apply andb_false_iff. rewrite !Z.leb_gt. lia.
Qed.

Lemma getDayOrNight_one_stretch_witness :
  getDayOrNight 1700040000 3600 1700030000 1700063000 = true
  /\ getDayOrNight 1700040000 3600 1700063000 1700030000 = false.
Proof.
  assert (S : forall x, Z.abs x <= 2000000000 -> safe x).
  { intros x H. unfold safe. change (2 ^ 53) with 9007199254740992. lia. }
  destruct (getDayOrNight_one_stretch 3600 1700030000 1700063000) as [A _].
  destruct (getDayOrNight_one_stretch 3600 1700063000 1700030000) as [_ B].
  split.
  - apply (A 1700030000 1700040000 1700063000);
      [apply S; lia | apply S; lia | vm_compute; reflexivity
       | vm_compute; reflexivity | lia].
  - apply B; [apply S; lia | apply S; lia | lia].
Defined.

(** ** Icons and themes, continued *)

(** Different categories have different themes, by day and by night. *)
Lemma spec_theme_inj (c c' : Category) (d : bool) :
  spec_theme c d = spec_theme c' d -> c = c'.
Proof.
  intros H. apply jsstring_eqb_eq in H.
  destruct c, c', d; try reflexivity; vm_compute in H; discriminate H.
Qed.

(** X15.  The background tells the categories apart: two condition codes
    drawn on the same background (for the same day flag) have the same
    icon component.  The converse fails, since the overcast prefix "04"
    and an unknown prefix share the plain cloud but not the background. *)
Theorem same_background_same_icon :
  forall (a b : jsstring) (isDay : bool),
    Part000.getBackgroundClass (Some a) (Some isDay)
      = Part000.getBackgroundClass (Some b) (Some isDay) ->
    component (Part000.getWeatherIcon a isDay)
      = component (Part000.getWeatherIcon b isDay).
Proof.
  intros a b d H.
  rewrite !Part000_getBackgroundClass_category in H.
  apply spec_theme_inj in H.
  rewrite !Part000_getWeatherIcon_category, H. reflexivity.
Qed.

Lemma same_background_same_icon_witness :
  component (Part000.getWeatherIcon (lit "09d") true)
    = component (Part000.getWeatherIcon (lit "10n") true)
  /\ component (Part000.getWeatherIcon (lit "04d") true)
       = component (Part000.getWeatherIcon (lit "99x") true)
  /\ Part000.getBackgroundClass (Some (lit "04d")) (Some true)
       <> Part000.getBackgroundClass (Some (lit "99x")) (Some true).
Proof.
  split; [apply (same_background_same_icon (lit "09d") (lit "10n") true);
          reflexivity|].
  split; [reflexivity|].
  intros H. apply jsstring_eqb_eq in H. vm_compute in H. discriminate H.
Defined.

(** X16.  The day flag matters for the prefixes "01", "02" and "03" and
    for no other code: for these three, icon and background differ
    between day and night; for every other code, the empty one included,
    both revisions return the same element and the same background
    whatever the flag. *)
Theorem day_flag_matters_only_for_clear_and_partly_cloudy :
  forall iconCode : jsstring,
    let prefix := slice0 2 iconCode in
    (In prefix [lit "01"; lit "02"; lit "03"] ->
       component (Page.getWeatherIcon iconCode true)
         <> component (Page.getWeatherIcon iconCode false)
       /\ component (Part000.getWeatherIcon iconCode true)
            <> component (Part000.getWeatherIcon iconCode false)
       /\ Part000.getBackgroundClass (Some iconCode) (Some true)
            <> Part000.getBackgroundClass (Some iconCode) (Some false))
    /\ (~ In prefix [lit "01"; lit "02"; lit "03"] ->
          Page.getWeatherIcon iconCode true = Page.getWeatherIcon iconCode false
          /\ Part000.getWeatherIcon iconCode true
               = Part000.getWeatherIcon iconCode false
          /\ Part000.getBackgroundClass (Some iconCode) (Some true)
               = Part000.getBackgroundClass (Some iconCode) (Some false)).
Proof.
  intros iconCode prefix. subst prefix. split.
  - intros H.
    rewrite !Page_getWeatherIcon_category, !Part000_getWeatherIcon_category,
      !Part000_getBackgroundClass_category.
    assert (C : spec_category (slice0 2 iconCode) = Clear
                \/ spec_category (slice0 2 iconCode) = PartlyCloudy).
    { cbn [In] in H. destruct H as [<- | [<- | [<- | []]]]; auto. }
    destruct C as [-> | ->]; (split; [discriminate|]; split; [discriminate|]);
      intros E; apply jsstring_eqb_eq in E; vm_compute in E; discriminate E.
  - intros H.
    assert (N1 : jsstring_eqb (slice0 2 iconCode) (lit "01") = false)
      by (apply jsstring_eqb_neq; intros E; apply H; rewrite E; simpl; tauto).
    assert (N2 : jsstring_eqb (slice0 2 iconCode) (lit "02") = false)
      by (apply jsstring_eqb_neq; intros E; apply H; rewrite E; simpl; tauto).
    assert (N3 : jsstring_eqb (slice0 2 iconCode) (lit "03") = false)
      by (apply jsstring_eqb_neq; intros E; apply H; rewrite E; simpl; tauto).
    unfold Page.getWeatherIcon, Part000.getWeatherIcon,
      Part000.getBackgroundClass.
    cbn [truthy_opt switch existsb]. cbv zeta.
    rewrite N1, N2, N3. cbn [orb].
    repeat split; reflexivity.
Qed.

Lemma day_flag_matters_only_for_clear_and_partly_cloudy_witness :
  component (Page.getWeatherIcon (lit "01d") true)
    <> component (Page.getWeatherIcon (lit "01d") false)
  /\ Part000.getWeatherIcon (lit "10d") true
       = Part000.getWeatherIcon (lit "10d") false.
Proof.
  destruct (day_flag_matters_only_for_clear_and_partly_cloudy (lit "01d"))
    as [A _].
  destruct (day_flag_matters_only_for_clear_and_partly_cloudy (lit "10d"))
    as [_ B].
  split.
  - apply A. left. reflexivity.
  - apply B. vm_compute. intuition discriminate.
Defined.

(** X17.  The two revisions draw the same component for every code and
    flag; they differ in the class names only: always "w-6 h-6" in
    [page.tsx], always "w-8 h-8" and then a colour in [part_000]. *)
Theorem revisions_draw_same_icon :
  forall (iconCode : jsstring) (isDay : bool),
    component (Page.getWeatherIcon iconCode isDay)
      = component (Part000.getWeatherIcon iconCode isDay)
    /\ className (Page.getWeatherIcon iconCode isDay) = lit "w-6 h-6"
    /\ exists colour,
         className (Part000.getWeatherIcon iconCode isDay)
           = lit "w-8 h-8 text-" ++ colour.
Proof.
  intros c d. split;
    [rewrite Page_getWeatherIcon_category, Part000_getWeatherIcon_category;
     reflexivity|].
  unfold Page.getWeatherIcon, Part000.getWeatherIcon.
  destruct (truthy c); cbn [negb].
  - cbv zeta. generalize (slice0 2 c) as p. intros p.
    cbn [switch existsb].
    repeat match goal with
           | |- context [jsstring_eqb p ?l] =>
               destruct (jsstring_eqb p l); cbn [orb]
           end;
      destruct d; (split; [reflexivity | eexists; reflexivity]).
  - split; [reflexivity | eexists; reflexivity].
Qed.

(** X18.  A successful response whose [weather] list is empty is stored
    like any other, and the next render then throws while reading
    [weatherData.weather[0].icon]: for a settled request that stores a
    snapshot, [backgroundClass] has no value exactly when that list is
    empty. *)
Theorem empty_weather_list_breaks_render :
  forall (o : FetchOutcome) (d : WeatherData) (s : UIState),
    snapshotOf o = Some d ->
    weatherData (settle o s) = Some d
    /\ (Part000.backgroundClass (settle o s) = None <-> weather d = []).
Proof.
  intros o d s H. pose proof (settle_by_snapshotOf o) as Hs.
  rewrite H in Hs. rewrite Hs.
  split; [reflexivity|].
  unfold Part000.backgroundClass. simpl.
  destruct (weather d) as [|first rest]; split; intros E;
    try reflexivity; discriminate E.
Qed.

Lemma empty_weather_list_breaks_render_witness :
  weatherData (settle (Fulfilled (http200 noWeather)) searchingParis)
    = Some noWeather
  /\ (Part000.backgroundClass (settle (Fulfilled (http200 noWeather)) searchingParis)
        = None
      <-> weather noWeather = []).
Proof.
  apply (empty_weather_list_breaks_render (Fulfilled (http200 noWeather))
           noWeather searchingParis).
  reflexivity.
Defined.

(** ** The request *)

(** X19.  What a search sends.  The query goes into the URL as typed:
    [trim] serves the guard only, and nothing is percent-encoded.  A
    missing API key is not noticed: the request is sent with the text
    "undefined" in its place.  For a given key, two searches send the
    same request only for the same query. *)
Theorem request_carries_query_as_typed :
  forall (API_KEY : option jsstring) (c : jsstring) (s : UIState),
    ~ blank c ->
    (exists s',
        fetchWeatherData API_KEY c s
          = AwaitingFetch s'
              {| url := lit "https://api.openweathermap.org/data/2.5/weather?q="
                          ++ c ++ lit "&appid="
                          ++ match API_KEY with
                             | Some k => k
                             | None => lit "undefined"
                             end
                          ++ lit "&units=metric" |})
    /\ (forall (c2 : jsstring) (s1 s2 : UIState) (req : Request),
          fetchWeatherData API_KEY c s = AwaitingFetch s1 req ->
          fetchWeatherData API_KEY c2 s = AwaitingFetch s2 req ->
          c2 = c).
Proof.
  intros API_KEY c s Hc.
  assert (T : truthy (trim c) = true).
  { destruct (truthy (trim c)) eqn:E; [reflexivity|].
    apply truthy_false_iff, trim_nil_iff in E. contradiction. }
  split.
  - unfold fetchWeatherData. rewrite T. cbn [negb].
    eexists. destruct API_KEY; reflexivity.
  - intros c2 s1 s2 req H1 H2. unfold fetchWeatherData in H1, H2.
    rewrite T in H1. cbn [negb] in H1.
    destruct (negb (truthy (trim c2))); [discriminate|].
    injection H1 as _ E1. injection H2 as _ E2.
    rewrite <- E1 in E2. apply (f_equal url) in E2.
    change (lit "https://api.openweathermap.org/data/2.5/weather?q="
              ++ c2 ++ (lit "&appid=" ++ interpolate API_KEY ++ lit "&units=metric")
            = lit "https://api.openweathermap.org/data/2.5/weather?q="
                ++ c ++ (lit "&appid=" ++ interpolate API_KEY ++ lit "&units=metric"))
      in E2.
    apply app_inv_head in E2. apply app_inv_tail in E2. exact E2.
Qed.

Lemma request_carries_query_as_typed_witness :
  exists s',
    fetchWeatherData None (lit " New York ") initialState
      = AwaitingFetch s'
          {| url := lit "https://api.openweathermap.org/data/2.5/weather?q= New York &appid=undefined&units=metric" |}.
Proof.
  destruct (request_carries_query_as_typed None (lit " New York ") initialState)
    as [A _].
  - intros H. apply trim_nil_iff in H. vm_compute in H. discriminate H.
  - exact A.
Defined.
